(** * AC optimal power flow on the 5-bus network: the model built by [main.py]

    The script builds one Pyomo [ConcreteModel] from three static tables
    (generators, demands, lines), hands it to an external solver and prints
    the solved values.  This development embeds the model builder and the
    reporter and checks the statements of the specification against them.

    Conventions of the embedding.
    - Python numbers of the tables are rationals ([Q]); quantities that go
      through [math.sqrt], [math.atan], [math.pi] or into a Pyomo expression
      are real numbers ([R]).  Rounding of binary floating point is not
      modelled.
    - A Python [dict] whose iteration order matters is an association list
      in insertion order; a Pyomo indexed component ([Var], [Constraint]) is
      a finite map from its index to its data.
    - Exceptions are values of [exn]; code that can raise lives in the
      [result] monad.
    - A Pyomo expression is a syntax tree ([expr]) with its value under an
      assignment of the variables ([eval]). *)

From Stdlib Require Import ZArith QArith Qreals Reals Lra Lia List String.
From stdpp Require Import gmap.
Import ListNotations.

Open Scope Z_scope.

(** ** Exceptions and the error monad *)

Inductive exn : Type :=
| ZeroDivisionError
| KeyError (component : string) (index : list Z).

Inductive result (A : Type) : Type :=
| Ok (a : A)
| Raise (e : exn).

Arguments Ok {A} a.
Arguments Raise {A} e.

Definition bind {A B : Type} (c : result A) (k : A -> result B) : result B :=
  match c with
  | Ok a => k a
  | Raise e => Raise e
  end.

Notation "'try' x <- c ; k" := (bind c (fun x => k))
  (at level 10, x name, c at level 100, k at level 200).

(** [for x in xs: body], threading the state [s] and stopping at the first
    exception. *)
Fixpoint for_each {A S : Type} (body : A -> S -> result S) (xs : list A) (s : S)
  : result S :=
  match xs with
  | [] => Ok s
  | x :: rest => try s' <- body x s; for_each body rest s'
  end.

(** A comprehension [[f(x) for x in xs]] whose element expression may raise. *)
Fixpoint comprehend {A B : Type} (f : A -> result B) (xs : list A)
  : result (list B) :=
  match xs with
  | [] => Ok []
  | x :: rest => try y <- f x; try ys <- comprehend f rest; Ok (y :: ys)
  end.

(** ** Dictionaries in insertion order *)

Definition dict (K V : Type) : Type := list (K * V).

Definition key_eqb (a b : Z * Z) : bool :=
  (fst a =? fst b) && (snd a =? snd b).

Section DictOps.
Context {K V : Type} (eqb : K -> K -> bool).

(** [d.get(k)] *)
Fixpoint dict_get (k : K) (d : dict K V) : option V :=
  match d with
  | [] => None
  | (k', v) :: rest => if eqb k k' then Some v else dict_get k rest
  end.

(** [k in d] *)
Definition dict_mem (k : K) (d : dict K V) : bool :=
  match dict_get k d with Some _ => true | None => false end.

(** [d[k]], raising [KeyError] when the key is missing. *)
Definition getitem (name : string) (ix : K -> list Z) (k : K) (d : dict K V)
  : result V :=
  match dict_get k d with
  | Some v => Ok v
  | None => Raise (KeyError name (ix k))
  end.
End DictOps.

Definition ix1 (i : Z) : list Z := [i].
Definition ix2 (k : Z * Z) : list Z := [fst k; snd k].

(** ** Sets of the model and the static tables *)

(** [model.i], [model.j], [model.slack] *)
Definition model_i : list Z := [1; 2; 3; 4; 5].
Definition model_j : list Z := [1; 2; 3; 4; 5].
Definition model_slack : list Z := [1].

(** Power base in MW. *)
Definition Sbase : Z := 100.
Definition SbaseQ : Q := inject_Z Sbase.

Record GenRow : Type := mkGen
  { pmax : Q; pmin : Q; Qmax : Q; Qmin : Q; b : Q }.

Record DemandRow : Type := mkDemand
  { Pd : Q; Qd : Q }.

(** The shunt field of a line is [b] in the source; it is read nowhere. *)
Record LineRow : Type := mkLine
  { r : Q; x : Q; b_shunt : Q; limit : Q }.

Arguments mkGen (pmax pmin Qmax Qmin b)%_Q.
Arguments mkDemand (Pd Qd)%_Q.
Arguments mkLine (r x b_shunt limit)%_Q.

Definition GenD : dict Z GenRow :=
  [ (1, mkGen 210 0 157.5 (-157.5) 3);
    (3, mkGen 520 0 390 (-390) 5);
    (4, mkGen 200 0 150 (-150) 2);
    (5, mkGen 600 0 450 (-450) 1) ].

Definition BD : dict Z DemandRow :=
  [ (1, mkDemand 100 0);
    (2, mkDemand 300 98.61);
    (3, mkDemand 300 98.61);
    (4, mkDemand 400 131.47);
    (5, mkDemand 500 0) ].

Definition LN : dict (Z * Z) LineRow :=
  [ ((1, 2), mkLine 0.00281 0.0281 0.00712 400);
    ((1, 3), mkLine 0.00304 0.0304 0.00658 400);
    ((1, 5), mkLine 0.00064 0.0064 0.03126 400);
    ((2, 3), mkLine 0.00108 0.0108 0.01852 400);
    ((3, 4), mkLine 0.00297 0.0297 0.00674 400);
    ((4, 5), mkLine 0.00297 0.0297 0.00674 240) ].

(** ** Derived line quantities *)

(** [a / b] on Python numbers. *)
Definition py_div (a c : Q) : result Q :=
  if Qeq_bool c 0 then Raise ZeroDivisionError else Ok (a / c)%Q.

(** [math.sqrt(x ** 2 + r ** 2)] *)
Definition z_of (row : LineRow) : R :=
  sqrt (Q2R (x row ^ 2 + r row ^ 2)).

(** [math.atan(x / r) if r != 0 else math.pi / 2] *)
Definition th_of (row : LineRow) : R :=
  if negb (Qeq_bool (r row) 0) then atan (Q2R (x row / r row)) else (PI / 2)%R.

Section Derived.
Variable lines : dict (Z * Z) LineRow.

(** The comprehensions run over the keys of the line table and read the
    row of each key back; over a dictionary that is the row stored with
    the key, so they are written over the items. *)
Definition bij : result (dict (Z * Z) Q) :=
  comprehend (fun kv => try v <- py_div 1 (x (snd kv)); Ok (fst kv, v)) lines.

Definition z : dict (Z * Z) R :=
  map (fun kv => (fst kv, z_of (snd kv))) lines.

Definition th : dict (Z * Z) R :=
  map (fun kv => (fst kv, th_of (snd kv))) lines.

(** [{(i, j): 1 if (i, j) in LN else 0 for i in model.i for j in model.j}] *)
Definition cx : dict (Z * Z) Z :=
  flat_map
    (fun i => map (fun j => ((i, j), if dict_mem key_eqb (i, j) lines then 1 else 0))
                  model_j)
    model_i.

(** [cx.get((i, j), 0)] *)
Definition cx_get (k : Z * Z) : Z :=
  match dict_get key_eqb k cx with Some c => c | None => 0 end.
End Derived.

(** ** Pyomo variables, expressions and constraints *)

(** Data of one scalar variable: [.value], [.lb], [.ub], [.fixed]. *)
Record VarData : Type := mkVar
  { value : option R; lb : option R; ub : option R; fixed : bool }.

(** A variable as [pyo.Var(..., domain=pyo.Reals)] creates it. *)
Definition new_var : VarData := mkVar None None None false.

Definition setlb (v : R) (d : VarData) : VarData :=
  mkVar (value d) (Some v) (ub d) (fixed d).
Definition setub (v : R) (d : VarData) : VarData :=
  mkVar (value d) (lb d) (Some v) (fixed d).
(** [component[index] = v] stores a value and leaves [fixed] as it is. *)
Definition set_value (v : R) (d : VarData) : VarData :=
  mkVar (Some v) (lb d) (ub d) (fixed d).

(** Names of the scalar variables of the model. *)
Inductive var : Type :=
| var_OF
| var_Pij (i j : Z)
| var_Qij (i j : Z)
| var_Pg (i : Z)
| var_Qg (i : Z)
| var_Va (i : Z)
| var_V (i : Z).

Inductive expr : Type :=
| Num (c : R)
| Ref (v : var)
| Add (e1 e2 : expr)
| Sub (e1 e2 : expr)
| Mul (e1 e2 : expr)
| Div (e1 e2 : expr)
| Pow (e : expr) (n : nat)
| Cos (e : expr)
| Sin (e : expr).

(** [lhs == rhs] *)
Inductive constraint : Type :=
| Equal (lhs rhs : expr).

Inductive sense : Type := minimize | maximize.

Record Objective : Type := mkObjective
  { obj_sense : sense; obj_expr : expr }.

Fixpoint eval (rho : var -> R) (e : expr) : R :=
  match e with
  | Num c => c
  | Ref v => rho v
  | Add e1 e2 => eval rho e1 + eval rho e2
  | Sub e1 e2 => eval rho e1 - eval rho e2
  | Mul e1 e2 => eval rho e1 * eval rho e2
  | Div e1 e2 => eval rho e1 / eval rho e2
  | Pow e n => eval rho e ^ n
  | Cos e => cos (eval rho e)
  | Sin e => sin (eval rho e)
  end%R.

Definition holds (rho : var -> R) (c : constraint) : Prop :=
  match c with
  | Equal lhs rhs => eval rho lhs = eval rho rhs
  end.

(** The variables an expression mentions, left to right. *)
Fixpoint vars_of (e : expr) : list var :=
  match e with
  | Num _ => []
  | Ref v => [v]
  | Add e1 e2 | Sub e1 e2 | Mul e1 e2 | Div e1 e2 => vars_of e1 ++ vars_of e2
  | Pow e _ | Cos e | Sin e => vars_of e
  end.

(** Python's [sum(es)]: starts from the integer 0 and adds from the left. *)
Definition py_sum (es : list expr) : expr :=
  fold_left Add es (Num 0).

(** ** The model object *)

Record Model : Type := mkModel
  { OF : VarData;
    Pij : gmap (Z * Z) VarData;
    Qij : gmap (Z * Z) VarData;
    Pg : gmap Z VarData;
    Qg : gmap Z VarData;
    Va : gmap Z VarData;
    V : gmap Z VarData;
    eq1 : gmap (Z * Z) constraint;
    eq2 : gmap (Z * Z) constraint;
    eq3 : gmap Z constraint;
    eq4 : gmap Z constraint;
    objective : option Objective }.

Definition set_Pij f (m : Model) : Model :=
  mkModel (OF m) f (Qij m) (Pg m) (Qg m) (Va m) (V m)
          (eq1 m) (eq2 m) (eq3 m) (eq4 m) (objective m).
Definition set_Pg f (m : Model) : Model :=
  mkModel (OF m) (Pij m) (Qij m) f (Qg m) (Va m) (V m)
          (eq1 m) (eq2 m) (eq3 m) (eq4 m) (objective m).
Definition set_Qg f (m : Model) : Model :=
  mkModel (OF m) (Pij m) (Qij m) (Pg m) f (Va m) (V m)
          (eq1 m) (eq2 m) (eq3 m) (eq4 m) (objective m).
Definition set_Va f (m : Model) : Model :=
  mkModel (OF m) (Pij m) (Qij m) (Pg m) (Qg m) f (V m)
          (eq1 m) (eq2 m) (eq3 m) (eq4 m) (objective m).
Definition set_V f (m : Model) : Model :=
  mkModel (OF m) (Pij m) (Qij m) (Pg m) (Qg m) (Va m) f
          (eq1 m) (eq2 m) (eq3 m) (eq4 m) (objective m).
Definition set_constraints c1 c2 c3 c4 (m : Model) : Model :=
  mkModel (OF m) (Pij m) (Qij m) (Pg m) (Qg m) (Va m) (V m)
          c1 c2 c3 c4 (objective m).
Definition set_objective o (m : Model) : Model :=
  mkModel (OF m) (Pij m) (Qij m) (Pg m) (Qg m) (Va m) (V m)
          (eq1 m) (eq2 m) (eq3 m) (eq4 m) (Some o).

(** An indexed [pyo.Var] is dense: one fresh variable per index. *)
Definition dense {K : Type} `{Countable K} (idx : list K) : gmap K VarData :=
  list_to_map (map (fun k => (k, new_var)) idx).

(** [model.i x model.j] in Pyomo's iteration order. *)
Definition model_ij : list (Z * Z) := list_prod model_i model_j.

(** Lines 56-62: the variables right after their declaration. *)
Definition declare_vars : Model :=
  mkModel new_var (dense model_ij) (dense model_ij)
          (dense model_i) (dense model_i) (dense model_i) (dense model_i)
          ∅ ∅ ∅ ∅ None.

(** [component[k].method(...)]: an index outside the index set raises
    [KeyError] before the method runs. *)
Definition at_index {K : Type} `{Countable K}
    (name : string) (ix : K -> list Z) (k : K) (f : VarData -> VarData)
    (vs : gmap K VarData) : result (gmap K VarData) :=
  match vs !! k with
  | Some d => Ok (<[k := f d]> vs)
  | None => Raise (KeyError name (ix k))
  end.

(** [component.method(...)] on the whole indexed variable. *)
Definition at_all {K : Type} `{Countable K}
    (f : VarData -> VarData) (vs : gmap K VarData) : gmap K VarData :=
  f <$> vs.

Definition per_unit (q : Q) : R := Q2R (q / SbaseQ).

(** ** The model builder, over arbitrary tables of the same shape *)

Section Builder.
Variable gens : dict Z GenRow.
Variable demands : dict Z DemandRow.
Variable lines : dict (Z * Z) LineRow.

(** Lines 65-69, one turn of the loop over the generator table. *)
Definition gen_bounds_body (g : Z * GenRow) (m : Model) : result Model :=
  let i := fst g in
  let row := snd g in
  try pg <- at_index "Pg" ix1 i (setlb (per_unit (pmin row))) (Pg m);
  try pg <- at_index "Pg" ix1 i (setub (per_unit (pmax row))) pg;
  try qg <- at_index "Qg" ix1 i (setlb (per_unit (Qmin row))) (Qg m);
  try qg <- at_index "Qg" ix1 i (setub (per_unit (Qmax row))) qg;
  Ok (set_Qg qg (set_Pg pg m)).

Definition gen_bounds (m : Model) : result Model :=
  for_each gen_bounds_body gens m.

(** Lines 72-73: the bounds go on the indexed variable as a whole. *)
Definition angle_bounds (m : Model) : Model :=
  set_Va (at_all (setlb (- PI / 2)) (at_all (setub (PI / 2)) (Va m))) m.

(** Lines 76-79, one turn of the loop over the line table. *)
Definition flow_bounds_body (l : (Z * Z) * LineRow) (m : Model) : result Model :=
  let k := fst l in
  let lim := limit (snd l) in
  try p <- at_index "Pij" ix2 k (setub (per_unit lim)) (Pij m);
  try p <- at_index "Pij" ix2 k (setlb (per_unit (- lim))) p;
  Ok (set_Pij p m).

Definition flow_bounds (m : Model) : result Model :=
  for_each flow_bounds_body lines m.

(** Lines 43-79: everything the script does before the first
    [pyo.Constraint]. *)
Definition build_bounds : result Model :=
  try _ <- bij lines;
  try m <- gen_bounds declare_vars;
  flow_bounds (angle_bounds m).

(** [pyo.Constraint.Skip] is [None]. *)
Definition eq1_rule (k : Z * Z) : result (option constraint) :=
  let (i, j) := k in
  if cx_get lines (i, j) =? 1 then
    try t <- getitem key_eqb "th" ix2 (i, j) (th lines);
    try zz <- getitem key_eqb "z" ix2 (i, j) (z lines);
    Ok (Some (Equal (Ref (var_Pij i j))
      (Div (Sub (Mul (Pow (Ref (var_V i)) 2) (Num (cos t)))
                (Mul (Mul (Ref (var_V i)) (Ref (var_V j)))
                     (Cos (Add (Sub (Ref (var_Va i)) (Ref (var_Va j))) (Num t)))))
           (Num zz))))
  else Ok None.

Definition eq2_rule (k : Z * Z) : result (option constraint) :=
  let (i, j) := k in
  if cx_get lines (i, j) =? 1 then
    try t <- getitem key_eqb "th" ix2 (i, j) (th lines);
    try zz <- getitem key_eqb "z" ix2 (i, j) (z lines);
    Ok (Some (Equal (Ref (var_Qij i j))
      (Div (Sub (Mul (Pow (Ref (var_V i)) 2) (Num (sin t)))
                (Mul (Mul (Ref (var_V i)) (Ref (var_V j)))
                     (Sin (Add (Sub (Ref (var_Va i)) (Ref (var_Va j))) (Num t)))))
           (Num zz))))
  else Ok None.

(** [j for j in model.j if cx.get((j, i), 0) == 1] *)
Definition inflow (i : Z) : list Z :=
  List.filter (fun j => cx_get lines (j, i) =? 1) model_j.

Definition eq3_rule (i : Z) : result (option constraint) :=
  if dict_mem Z.eqb i demands then
    try row <- getitem Z.eqb "BD" ix1 i demands;
    Ok (Some (Equal (Sub (Ref (var_Pg i)) (Num (per_unit (Pd row))))
                    (py_sum (map (fun j => Ref (var_Pij j i)) (inflow i)))))
  else Ok None.

Definition eq4_rule (i : Z) : result (option constraint) :=
  if dict_mem Z.eqb i demands then
    try row <- getitem Z.eqb "BD" ix1 i demands;
    Ok (Some (Equal (Sub (Ref (var_Qg i)) (Num (per_unit (Qd row))))
                    (py_sum (map (fun j => Ref (var_Qij j i)) (inflow i)))))
  else Ok None.

(** [pyo.Constraint(index, rule=...)]: the rule runs once per index, in
    order; a skipped index stores nothing. *)
Definition indexed_constraint {K : Type} `{Countable K}
    (rule : K -> result (option constraint)) (idx : list K)
  : result (gmap K constraint) :=
  for_each
    (fun k cs =>
       try c <- rule k;
       Ok (match c with Some c' => <[k := c']> cs | None => cs end))
    idx ∅.

(** One summand of the cost, for generator bus [i] with coefficient [c]. *)
Definition cost_term (g : Z * GenRow) : expr :=
  let p := Ref (var_Pg (fst g)) in
  let c := Num (Q2R (b (snd g))) in
  let s := Num (IZR Sbase) in
  Add (Add (Mul (Mul p c) s) (Mul (Mul (Mul (Mul p p) c) s) s)) c.

Definition objective_rule : expr :=
  py_sum (map cost_term gens).

(** Lines 125-126; the float [1.0] is the real number 1. *)
Definition init_slack (m : Model) : result Model :=
  try v <- at_index "V" ix1 1 (set_value 1) (V m);
  try a <- at_index "Va" ix1 1 (set_value 0) (Va m);
  Ok (set_Va a (set_V v m)).

(** Lines 5-126: the model handed to the solver. *)
Definition build : result Model :=
  try m <- build_bounds;
  try c1 <- indexed_constraint eq1_rule model_ij;
  try c2 <- indexed_constraint eq2_rule model_ij;
  try c3 <- indexed_constraint eq3_rule model_i;
  try c4 <- indexed_constraint eq4_rule model_i;
  let m := set_constraints c1 c2 c3 c4 m in
  let m := set_objective (mkObjective minimize objective_rule) m in
  init_slack m.
End Builder.

(** The model of the script: the builder on the tables of the source. *)
Definition built : result Model := build GenD BD LN.

Definition model : Model :=
  match built with
  | Ok m => m
  | Raise _ => declare_vars
  end.

(** ** Feasible points of the optimisation problem *)

(** A value respects the data of its variable: inside the bounds that are
    set, and equal to the stored value when the variable is fixed. *)
Definition within (d : VarData) (v : R) : Prop :=
  match lb d with Some l => (l <= v)%R | None => True end /\
  match ub d with Some u => (v <= u)%R | None => True end /\
  (if fixed d then value d = Some v else True).

Definition feasible (m : Model) (rho : var -> R) : Prop :=
  within (OF m) (rho var_OF) /\
  (forall i j d, Pij m !! (i, j) = Some d -> within d (rho (var_Pij i j))) /\
  (forall i j d, Qij m !! (i, j) = Some d -> within d (rho (var_Qij i j))) /\
  (forall i d, Pg m !! i = Some d -> within d (rho (var_Pg i))) /\
  (forall i d, Qg m !! i = Some d -> within d (rho (var_Qg i))) /\
  (forall i d, Va m !! i = Some d -> within d (rho (var_Va i))) /\
  (forall i d, V m !! i = Some d -> within d (rho (var_V i))) /\
  (forall k c, eq1 m !! k = Some c -> holds rho c) /\
  (forall k c, eq2 m !! k = Some c -> holds rho c) /\
  (forall i c, eq3 m !! i = Some c -> holds rho c) /\
  (forall i c, eq4 m !! i = Some c -> holds rho c).

(** Sum of a list of reals, for the right-hand sides of the balances. *)
Definition sum_R (l : list R) : R := fold_right Rplus 0%R l.

(** ** The solver's result and the reporter *)

(** [pyomo.opt.TerminationCondition] *)
Inductive TerminationCondition : Type :=
| unknown | maxTimeLimit | maxIterations | minFunctionValue | minStepLength
| globallyOptimal | locallyOptimal | feasible_tc | optimal | maxEvaluations
| other | unbounded | infeasible | infeasibleOrUnbounded | invalidProblem
| intermediateNonInteger | noSolution | solverFailure | internalSolverError
| error | userInterrupt | resourceInterrupt | licensingProblems.

Definition is_optimal (tc : TerminationCondition) : bool :=
  match tc with optimal => true | _ => false end.

(** What [solver.solve(model)] leaves in the model: the [.value] of every
    variable is whatever the solver loaded or left there; bounds, constraints
    and objective are untouched. *)
Definition load_value (v : option R) (d : VarData) : VarData :=
  mkVar v (lb d) (ub d) (fixed d).

Definition assign (vals : var -> option R) (m : Model) : Model :=
  mkModel (load_value (vals var_OF) (OF m))
          (map_imap (fun k d => Some (load_value (vals (var_Pij (fst k) (snd k))) d)) (Pij m))
          (map_imap (fun k d => Some (load_value (vals (var_Qij (fst k) (snd k))) d)) (Qij m))
          (map_imap (fun i d => Some (load_value (vals (var_Pg i)) d)) (Pg m))
          (map_imap (fun i d => Some (load_value (vals (var_Qg i)) d)) (Qg m))
          (map_imap (fun i d => Some (load_value (vals (var_Va i)) d)) (Va m))
          (map_imap (fun i d => Some (load_value (vals (var_V i)) d)) (V m))
          (eq1 m) (eq2 m) (eq3 m) (eq4 m) (objective m).

(** Printed text.  A line is the sequence of the pieces [print] joins; the
    decimal rendering of an index, of a float and of a termination condition
    is left to the piece. *)
Inductive piece : Type :=
| Text (s : string)
| Int (n : Z)
| Float (v : R)
| Cond (tc : TerminationCondition).

Definition line : Type := list piece.

(** Lines 133-136. *)
Definition status_line (tc : TerminationCondition) : line :=
  if is_optimal tc then [Text "Model solved successfully!"]
  else [Text "Model could not be solved. Termination condition:"; Text " "; Cond tc].

(** [for i in model.i: if component[i].value is not None: print(fmt)] *)
Definition print_loop (name : string) (vs : gmap Z VarData) (fmt : Z -> R -> line)
    (out : list line) : result (list line) :=
  for_each
    (fun i out =>
       match vs !! i with
       | Some d =>
           Ok (match value d with
               | Some v => out ++ [fmt i v]
               | None => out
               end)
       | None => Raise (KeyError name (ix1 i))
       end)
    model_i out.

Definition fmt_Pg_bare (i : Z) (v : R) : line :=
  [Text "Generator "; Int i; Text ": Pg = "; Float (v * IZR Sbase)].
Definition fmt_Va (i : Z) (v : R) : line :=
  [Text "Bus "; Int i; Text ": Va = "; Float v].
Definition fmt_Pg_MW (i : Z) (v : R) : line :=
  [Text "Generator "; Int i; Text ": Pg = "; Float (v * IZR Sbase); Text " MW"].
Definition fmt_Qg_MVar (i : Z) (v : R) : line :=
  [Text "Generator "; Int i; Text ": Qg = "; Float (v * IZR Sbase); Text " MVar"].

(** Lines 139-164. *)
Definition report_loops (m : Model) (out : list line) : result (list line) :=
  try out <- print_loop "Pg" (Pg m) fmt_Pg_bare out;
  try out <- print_loop "Va" (Va m) fmt_Va out;
  let out := out ++ [[Text "Active Power Output (Pg) in MW:"]] in
  try out <- print_loop "Pg" (Pg m) fmt_Pg_MW out;
  let out := out ++ [[Text "Reactive Power Output (Qg) in MVar:"]] in
  print_loop "Qg" (Qg m) fmt_Qg_MVar out.

(** Lines 133-164: standard output of the script once the solver has
    returned [tc] and left the model as [m]. *)
Definition report (tc : TerminationCondition) (m : Model) : result (list line) :=
  report_loops m [status_line tc].

(** The lines one loop prints, in bus order. *)
Definition loop_lines (vals : Z -> option R) (fmt : Z -> R -> line) : list line :=
  flat_map (fun i => match vals i with Some v => [fmt i v] | None => [] end) model_i.

(** ** Vocabulary of the statements *)

(** The lines the source declares, as ordered pairs. *)
Definition declared_lines : list (Z * Z) :=
  [(1, 2); (1, 3); (1, 5); (2, 3); (3, 4); (4, 5)].

(** Right-hand side of the active and of the reactive flow equation, as the
    specification writes them. *)
Definition flow_P_rhs (rho : var -> R) (i j : Z) (theta zz : R) : R :=
  ((rho (var_V i) ^ 2 * cos theta
    - rho (var_V i) * rho (var_V j) * cos (rho (var_Va i) - rho (var_Va j) + theta))
   / zz)%R.

Definition flow_Q_rhs (rho : var -> R) (i j : Z) (theta zz : R) : R :=
  ((rho (var_V i) ^ 2 * sin theta
    - rho (var_V i) * rho (var_V j) * sin (rho (var_Va i) - rho (var_Va j) + theta))
   / zz)%R.

(** Impedance magnitude and angle of a line, as the specification writes
    them. *)
Definition z_spec (row : LineRow) : R :=
  sqrt (Q2R (x row) ^ 2 + Q2R (r row) ^ 2)%R.

Definition theta_spec (row : LineRow) : R :=
  if Qeq_bool (r row) 0 then (PI / 2)%R else atan (Q2R (x row) / Q2R (r row)).

(** Sum over the buses [j] with [cx(j, i) = 1] of the flow variable indexed
    [(j, i)]. *)
Definition inflow_sum (rho : var -> R) (flow : Z -> Z -> var)
    (lines : dict (Z * Z) LineRow) (i : Z) : R :=
  sum_R (map (fun j => rho (flow j i))
             (List.filter (fun j => cx_get lines (j, i) =? 1) model_j)).

(** Cost of one generator at output [p] with coefficient [c], as the
    specification writes it. *)
Definition cost_spec (p c : R) : R :=
  (p * c * IZR Sbase + p ^ 2 * c * IZR Sbase ^ 2 + c)%R.

(** Data the built model holds for each variable, read off the tables. *)
Definition Pg_entry (i : Z) : VarData :=
  match dict_get Z.eqb i GenD with
  | Some row => mkVar None (Some (per_unit (pmin row))) (Some (per_unit (pmax row))) false
  | None => new_var
  end.

Definition Qg_entry (i : Z) : VarData :=
  match dict_get Z.eqb i GenD with
  | Some row => mkVar None (Some (per_unit (Qmin row))) (Some (per_unit (Qmax row))) false
  | None => new_var
  end.

Definition Va_entry (i : Z) : VarData :=
  mkVar (if i =? 1 then Some 0%R else None) (Some (- PI / 2)%R) (Some (PI / 2)%R) false.

Definition V_entry (i : Z) : VarData :=
  mkVar (if i =? 1 then Some 1%R else None) None None false.

Definition Pij_entry (k : Z * Z) : VarData :=
  match dict_get key_eqb k LN with
  | Some row => mkVar None (Some (per_unit (- limit row))) (Some (per_unit (limit row))) false
  | None => new_var
  end.

(** An assignment of the variables with slack magnitude 0 and slack angle 1:
    buses 1 and 2 at magnitude 0, bus 3 at 1/20 and angle -atan 10, buses 4
    and 5 at (18/100) sqrt 101; flows and injections are what the flow
    equations and the balances then force. *)
Definition rho_off (v : var) : R :=
  match v with
  | var_OF => 0
  | var_V i =>
      if i =? 3 then 1 / 20
      else if (i =? 4) || (i =? 5) then 18 / 100 * sqrt 101
      else 0
  | var_Va i => if i =? 1 then 1 else if i =? 3 then - atan 10 else 0
  | var_Pij i j => if (i =? 3) && (j =? 4) then - (90650 / 29997) else 0
  | var_Qij i j => if (i =? 3) && (j =? 4) then 2500 / 29997 else 0
  | var_Pg i =>
      if i =? 1 then 1 else if i =? 2 then 3 else if i =? 3 then 3
      else if i =? 4 then 29338 / 29997 else if i =? 5 then 5 else 0
  | var_Qg i =>
      if i =? 2 then 9861 / 10000 else if i =? 3 then 9861 / 10000
      else if i =? 4 then 13147 / 10000 + 2500 / 29997 else 0
  end%R.

(** Everything the script prints after the status line, for the values
    [vals] the solver left in the model. *)
Definition report_body (vals : var -> option R) : list line :=
  loop_lines (fun i => vals (var_Pg i)) fmt_Pg_bare ++
  loop_lines (fun i => vals (var_Va i)) fmt_Va ++
  [Text "Active Power Output (Pg) in MW:"] ::
  loop_lines (fun i => vals (var_Pg i)) fmt_Pg_MW ++
  [Text "Reactive Power Output (Qg) in MVar:"] ::
  loop_lines (fun i => vals (var_Qg i)) fmt_Qg_MVar.

(** The two line shapes the specification lists for the per-bus output. *)
Definition Pg_MW_form (l : line) : Prop :=
  exists i v, l = [Text "Generator "; Int i; Text ": Pg = "; Float v; Text " MW"].

Definition Va_form (l : line) : Prop :=
  exists i v, l = [Text "Bus "; Int i; Text ": Va = "; Float v].

(** A solver result with a value for Pg[1] and for Va[1] only. *)
Definition vals_bus1 (v : var) : option R :=
  match v with
  | var_Pg 1 => Some 1%R
  | var_Va 1 => Some 0%R
  | _ => None
  end.

(** No flow variable exists outside [model.i x model.j]. *)
Definition Pij_in_range (m : Model) : Prop :=
  forall k, ~ In k model_ij -> Pij m !! k = None.

(** The demand table of the source without the entry of bus 2. *)
Definition BD_without_2 : dict Z DemandRow :=
  [ (1, mkDemand 100 0);
    (3, mkDemand 300 98.61);
    (4, mkDemand 400 131.47);
    (5, mkDemand 500 0) ].

(** The line table of the source with one more line, to a bus 6. *)
Definition LN_bus6 : dict (Z * Z) LineRow :=
  LN ++ [((5, 6), mkLine 0.00297 0.0297 0.00674 240)].

(** An indexed variable that has data at every index of [idx] and at no
    other. *)
Definition dense_on {K : Type} `{Countable K} (idx : list K)
    (vs : gmap K VarData) : Prop :=
  forall k, (exists d, vs !! k = Some d) <-> In k idx.

(** Every indexed variable of the model lives on its index set. *)
Definition well_indexed (m : Model) : Prop :=
  dense_on model_ij (Pij m) /\ dense_on model_ij (Qij m) /\
  dense_on model_i (Pg m) /\ dense_on model_i (Qg m) /\
  dense_on model_i (Va m) /\ dense_on model_i (V m).

(** Bounds a generator row puts on a variable [d]: lines 66-69. *)
Definition with_P_bounds (row : GenRow) (d : VarData) : VarData :=
  setub (per_unit (pmax row)) (setlb (per_unit (pmin row)) d).

Definition with_Q_bounds (row : GenRow) (d : VarData) : VarData :=
  setub (per_unit (Qmax row)) (setlb (per_unit (Qmin row)) d).

(** Bounds a line row puts on a variable [d]: lines 77-79. *)
Definition with_flow_bounds (row : LineRow) (d : VarData) : VarData :=
  setlb (per_unit (- limit row)) (setub (per_unit (limit row)) d).

(** The same assignment with every voltage angle moved by [delta]. *)
Definition shift_angles (delta : R) (rho : var -> R) (v : var) : R :=
  match v with
  | var_Va i => (rho (var_Va i) + delta)%R
  | _ => rho v
  end.

(** The generator table of the source with one more generator, at a bus 7. *)
Definition GenD_bus7 : dict Z GenRow :=
  GenD ++ [(7, mkGen 100 0 75 (-75) 4)].

(** The line table of the source with one more line, of reactance zero. *)
Definition LN_zero_x : dict (Z * Z) LineRow :=
  LN ++ [((2, 4), mkLine 0.001 0 0.01 300)].

(** The demand table of the source with one more entry, for a bus 9. *)
Definition BD_bus9 : dict Z DemandRow :=
  BD ++ [(9, mkDemand 250 40)].

(** A variable that has neither been given a value nor been fixed. *)
Definition unset (d : VarData) : Prop :=
  value d = None /\ fixed d = false.

Definition all_unset {K : Type} `{Countable K} (vs : gmap K VarData) : Prop :=
  forall k d, vs !! k = Some d -> unset d.

(** * Properties of the builder and of the reporter *)

(** ** Bus indices *)

Lemma bus_cases (i : Z) :
  i = 1 \/ i = 2 \/ i = 3 \/ i = 4 \/ i = 5 \/ ~ In i model_i.
Proof.
  destruct (decide (i = 1)); [tauto|]. destruct (decide (i = 2)); [tauto|].
  destruct (decide (i = 3)); [tauto|]. destruct (decide (i = 4)); [tauto|].
  destruct (decide (i = 5)); [tauto|].
  do 5 right. simpl. intuition congruence.
Qed.

Lemma Zeqb_bus (i n : Z) : ~ In i model_i -> In n model_i -> (i =? n) = false.
Proof.
  intros Hi Hn. apply Z.eqb_neq. intros ->. contradiction.
Qed.

Ltac bus_split i :=
  destruct (bus_cases i) as [->|[->|[->|[->|[->|?]]]]].

Ltac off_bus :=
  repeat match goal with
         | H : ~ In ?i model_i |- context [?i =? ?n] =>
             rewrite (Zeqb_bus i n H) by (simpl; tauto)
         end.

Lemma in_model_ij (i j : Z) :
  In (i, j) model_ij <-> In i model_i /\ In j model_j.
Proof. unfold model_ij. apply in_prod_iff. Qed.

(** ** Dictionaries *)

Lemma key_eqb_eq (a c : Z * Z) : key_eqb a c = true <-> a = c.
Proof.
  destruct a as [a1 a2], c as [c1 c2]. unfold key_eqb. cbn [fst snd].
  rewrite andb_true_iff, !Z.eqb_eq. split; [intros [-> ->]|intros [= -> ->]]; auto.
Qed.

Lemma dict_get_map {K A B : Type} (eqb : K -> K -> bool) (f : A -> B)
    (k : K) (d : dict K A) :
  dict_get eqb k (map (fun kv => (fst kv, f (snd kv))) d) =
  option_map f (dict_get eqb k d).
Proof.
  induction d as [|[k' v] d IH]; cbn [map dict_get fst snd]; [reflexivity|].
  destruct (eqb k k'); [reflexivity|apply IH].
Qed.

Lemma dict_mem_get {K A : Type} (eqb : K -> K -> bool) (k : K) (d : dict K A) :
  dict_mem eqb k d = true <-> exists v, dict_get eqb k d = Some v.
Proof.
  unfold dict_mem. destruct (dict_get eqb k d) as [v|].
  - split; eauto.
  - split; [discriminate|intros [v E]; discriminate E].
Qed.

Lemma dict_get_In (k : Z * Z) {A : Type} (d : dict (Z * Z) A) (v : A) :
  dict_get key_eqb k d = Some v -> In (k, v) d.
Proof.
  induction d as [|[k' v'] d IH]; cbn [dict_get]; [discriminate|].
  destruct (key_eqb k k') eqn:E.
  - intros [= ->]. apply key_eqb_eq in E as ->. now left.
  - intros H. right. auto.
Qed.

(** ** The connectivity indicator *)

Lemma cx_get_one (lines : dict (Z * Z) LineRow) (i j : Z) :
  cx_get lines (i, j) = 1 <->
  In i model_i /\ In j model_j /\ dict_mem key_eqb (i, j) lines = true.
Proof.
  unfold cx_get, cx, key_eqb.
  cbn [model_i model_j flat_map map app dict_get fst snd].
  bus_split i; bus_split j; off_bus; cbn [andb Z.eqb Pos.eqb];
    try match goal with
        | |- context [dict_mem ?e ?k ?l] => destruct (dict_mem e k l)
        end;
    (split; [intros E; try discriminate E; simpl; tauto
            | intros (Hi & Hj & E); try discriminate E; try reflexivity;
              try contradiction ]).
Qed.

Lemma LN_keys : map fst LN = declared_lines.
Proof. reflexivity. Qed.

Lemma LN_mem (i j : Z) :
  dict_mem key_eqb (i, j) LN = true <-> In (i, j) declared_lines.
Proof.
  rewrite dict_mem_get. split.
  - intros [row E]. apply dict_get_In in E.
    rewrite <- LN_keys. change (i, j) with (fst ((i, j), row)).
    now apply in_map.
  - intros H. simpl in H.
    repeat (destruct H as [[= <- <-]|H]; [eexists; reflexivity|]).
    contradiction.
Qed.

Lemma cx_LN (i j : Z) : cx_get LN (i, j) = 1 <-> In (i, j) declared_lines.
Proof.
  rewrite cx_get_one, LN_mem. split; [tauto|].
  intros H. split; [|split]; [| |exact H]; simpl in H;
    repeat (destruct H as [[= <- <-]|H]; [simpl; tauto|]); contradiction.
Qed.

(** ** Per-unit values and derived line quantities *)

Lemma Q2R_Sbase : Q2R SbaseQ = 100%R.
Proof. unfold SbaseQ, Sbase, Q2R, inject_Z. cbn [Qnum Qden]. lra. Qed.

Lemma per_unit_eq (q : Q) : per_unit q = (Q2R q / 100)%R.
Proof.
  unfold per_unit. rewrite Q2R_div by discriminate. now rewrite Q2R_Sbase.
Qed.

Lemma per_unit_opp (q : Q) : per_unit (- q) = (- (Q2R q / 100))%R.
Proof. rewrite per_unit_eq, Q2R_opp. lra. Qed.

Lemma z_of_eq (row : LineRow) :
  z_of row = sqrt (Q2R (x row) ^ 2 + Q2R (r row) ^ 2)%R.
Proof.
  unfold z_of. f_equal.
  change (x row ^ 2)%Q with (x row * x row)%Q.
  change (r row ^ 2)%Q with (r row * r row)%Q.
  rewrite Q2R_plus, !Q2R_mult. ring.
Qed.

Lemma Q2R_zero_iff (q : Q) : Q2R q = 0%R <-> (q == 0)%Q.
Proof.
  split.
  - intros H. apply eqR_Qeq. now rewrite H, RMicromega.Q2R_0.
  - intros H. rewrite (Qeq_eqR _ _ H). apply RMicromega.Q2R_0.
Qed.

Lemma th_of_eq (row : LineRow) :
  th_of row =
  if Qeq_bool (r row) 0 then (PI / 2)%R else atan (Q2R (x row) / Q2R (r row)).
Proof.
  unfold th_of. destruct (Qeq_bool (r row) 0) eqn:E; cbn [negb]; [reflexivity|].
  rewrite Q2R_div; [reflexivity|]. now apply Qeq_bool_neq.
Qed.

Lemma z_of_pos (row : LineRow) : ~ (x row == 0)%Q -> (0 < z_of row)%R.
Proof.
  intros Hx. rewrite z_of_eq. apply sqrt_lt_R0.
  assert (Q2R (x row) <> 0%R) by (rewrite Q2R_zero_iff; exact Hx).
  nra.
Qed.

(** ** Values of expressions *)

Lemma eval_fold_Add (rho : var -> R) (es : list expr) (acc : expr) :
  eval rho (fold_left Add es acc) = (eval rho acc + sum_R (map (eval rho) es))%R.
Proof.
  revert acc. induction es as [|e es IH]; intros acc; cbn [fold_left map sum_R fold_right].
  - lra.
  - rewrite IH. cbn [eval]. fold (sum_R (map (eval rho) es)). lra.
Qed.

Lemma eval_py_sum (rho : var -> R) (es : list expr) :
  eval rho (py_sum es) = sum_R (map (eval rho) es).
Proof. unfold py_sum. rewrite eval_fold_Add. cbn [eval]. lra. Qed.

Lemma vars_fold_Add (es : list expr) (acc : expr) :
  vars_of (fold_left Add es acc) = vars_of acc ++ flat_map vars_of es.
Proof.
  revert acc. induction es as [|e es IH]; intros acc; cbn [fold_left flat_map].
  - now rewrite app_nil_r.
  - rewrite IH. cbn [vars_of]. now rewrite <- app_assoc.
Qed.

(** ** Indexed constraints *)

Section IndexedConstraint.
Context {K : Type} `{Countable K}.
Variable rule : K -> result (option constraint).

Lemma constraint_loop_lookup (idx : list K) (acc cs : gmap K constraint) (k : K) :
  for_each
    (fun k cs =>
       try c <- rule k;
       Ok (match c with Some c' => <[k := c']> cs | None => cs end))
    idx acc = Ok cs ->
  cs !! k =
  match (if decide (k ∈ idx) then rule k else Ok None) with
  | Ok (Some c) => Some c
  | _ => acc !! k
  end.
Proof.
  revert acc. induction idx as [|k0 idx IH]; intros acc; cbn [for_each].
  - intros [= ->]. rewrite decide_False by apply not_elem_of_nil. reflexivity.
  - destruct (rule k0) as [o|e] eqn:Erule; cbn [bind]; [|discriminate].
    intros Hrest. rewrite (IH _ Hrest).
    destruct (decide (k ∈ idx)) as [Hin|Hnin].
    + rewrite decide_True by (apply elem_of_cons; now right).
      destruct (rule k) as [[c|]|e] eqn:Ek; try reflexivity.
      * destruct o as [c'|]; [|reflexivity].
        destruct (decide (k0 = k)) as [->|Hne]; [congruence|].
        now rewrite lookup_insert_ne.
      * destruct o as [c'|]; [|reflexivity].
        destruct (decide (k0 = k)) as [->|Hne]; [congruence|].
        now rewrite lookup_insert_ne.
    + destruct (decide (k = k0)) as [->|Hne].
      * rewrite decide_True by (apply elem_of_cons; now left).
        rewrite Erule. destruct o as [c'|]; [apply lookup_insert_eq|reflexivity].
      * rewrite decide_False by (rewrite elem_of_cons; tauto).
        destruct o as [c'|]; [|reflexivity].
        now rewrite lookup_insert_ne.
Qed.

(** The component holds, at each index of the index set, what the rule
    returned there, and nothing elsewhere. *)
Lemma indexed_constraint_lookup (idx : list K) (cs : gmap K constraint) (k : K) :
  indexed_constraint rule idx = Ok cs ->
  cs !! k =
  match (if decide (k ∈ idx) then rule k else Ok None) with
  | Ok (Some c) => Some c
  | _ => None
  end.
Proof.
  intros Hc. rewrite (constraint_loop_lookup idx ∅ cs k Hc).
  destruct (if decide (k ∈ idx) then rule k else Ok None) as [[c|]|e];
    try reflexivity; apply lookup_empty.
Qed.
End IndexedConstraint.

(** ** Inversion of a successful build *)

Lemma bind_Ok {A B : Type} (c : result A) (k : A -> result B) (y : B) :
  bind c k = Ok y -> exists a, c = Ok a /\ k a = Ok y.
Proof. destruct c as [a|e]; cbn [bind]; [eauto|discriminate]. Qed.

Lemma at_index_Ok {K : Type} `{Countable K} name ix (k : K) f
    (vs vs' : gmap K VarData) :
  at_index name ix k f vs = Ok vs' ->
  exists d, vs !! k = Some d /\ vs' = <[k := f d]> vs.
Proof.
  unfold at_index. destruct (vs !! k) as [d|]; [|discriminate].
  intros [= <-]. eauto.
Qed.

Lemma build_inv gens demands lines m :
  build gens demands lines = Ok m ->
  exists m0 v a,
    build_bounds gens lines = Ok m0 /\
    indexed_constraint (eq1_rule lines) model_ij = Ok (eq1 m) /\
    indexed_constraint (eq2_rule lines) model_ij = Ok (eq2 m) /\
    indexed_constraint (eq3_rule demands lines) model_i = Ok (eq3 m) /\
    indexed_constraint (eq4_rule demands lines) model_i = Ok (eq4 m) /\
    objective m = Some (mkObjective minimize (objective_rule gens)) /\
    at_index "V" ix1 1 (set_value 1) (V m0) = Ok v /\
    at_index "Va" ix1 1 (set_value 0) (Va m0) = Ok a /\
    V m = v /\ Va m = a /\
    Pij m = Pij m0 /\ Qij m = Qij m0 /\ Pg m = Pg m0 /\ Qg m = Qg m0 /\
    OF m = OF m0.
Proof.
  unfold build. intros Hb.
  apply bind_Ok in Hb as (m0 & Hm0 & Hb).
  apply bind_Ok in Hb as (c1 & Hc1 & Hb).
  apply bind_Ok in Hb as (c2 & Hc2 & Hb).
  apply bind_Ok in Hb as (c3 & Hc3 & Hb).
  apply bind_Ok in Hb as (c4 & Hc4 & Hb).
  unfold init_slack in Hb.
  apply bind_Ok in Hb as (v & Hv & Hb).
  apply bind_Ok in Hb as (a & Ha & Hb).
  injection Hb as <-. exists m0, v, a.
  unfold set_Va, set_V, set_objective, set_constraints in *.
  cbn [eq1 eq2 eq3 eq4 objective V Va Pij Qij Pg Qg OF] in *.
  repeat split; assumption.
Qed.

Lemma built_ok : built = Ok model.
Proof. vm_compute. reflexivity. Qed.

(** ** The flow equations (lines 82-94) *)

Lemma getitem_map_Ok {A B : Type} (f : A -> B) name (k : Z * Z)
    (d : dict (Z * Z) A) (v : A) :
  dict_get key_eqb k d = Some v ->
  getitem key_eqb name ix2 k (map (fun kv => (fst kv, f (snd kv))) d) = Ok (f v).
Proof.
  intros E. unfold getitem. now rewrite dict_get_map, E.
Qed.

Lemma eq1_rule_on lines i j row :
  cx_get lines (i, j) = 1 ->
  dict_get key_eqb (i, j) lines = Some row ->
  exists c, eq1_rule lines (i, j) = Ok (Some c) /\
    forall rho, holds rho c <->
      rho (var_Pij i j) = flow_P_rhs rho i j (theta_spec row) (z_spec row).
Proof.
  intros Hcx Hrow. unfold eq1_rule. rewrite Hcx. cbn [Z.eqb Pos.eqb].
  unfold th, z. rewrite (getitem_map_Ok th_of _ _ _ _ Hrow). cbn [bind].
  rewrite (getitem_map_Ok z_of _ _ _ _ Hrow). cbn [bind].
  eexists. split; [reflexivity|].
  intros rho. unfold holds, flow_P_rhs, theta_spec, z_spec. cbn [eval].
  rewrite <- th_of_eq, <- z_of_eq. reflexivity.
Qed.

Lemma eq2_rule_on lines i j row :
  cx_get lines (i, j) = 1 ->
  dict_get key_eqb (i, j) lines = Some row ->
  exists c, eq2_rule lines (i, j) = Ok (Some c) /\
    forall rho, holds rho c <->
      rho (var_Qij i j) = flow_Q_rhs rho i j (theta_spec row) (z_spec row).
Proof.
  intros Hcx Hrow. unfold eq2_rule. rewrite Hcx. cbn [Z.eqb Pos.eqb].
  unfold th, z. rewrite (getitem_map_Ok th_of _ _ _ _ Hrow). cbn [bind].
  rewrite (getitem_map_Ok z_of _ _ _ _ Hrow). cbn [bind].
  eexists. split; [reflexivity|].
  intros rho. unfold holds, flow_Q_rhs, theta_spec, z_spec. cbn [eval].
  rewrite <- th_of_eq, <- z_of_eq. reflexivity.
Qed.

Lemma eq1_rule_off lines i j :
  cx_get lines (i, j) <> 1 -> eq1_rule lines (i, j) = Ok None.
Proof.
  intros Hcx. unfold eq1_rule. now apply Z.eqb_neq in Hcx as ->.
Qed.

Lemma eq2_rule_off lines i j :
  cx_get lines (i, j) <> 1 -> eq2_rule lines (i, j) = Ok None.
Proof.
  intros Hcx. unfold eq2_rule. now apply Z.eqb_neq in Hcx as ->.
Qed.

Lemma cx_get_row lines i j :
  cx_get lines (i, j) = 1 ->
  In (i, j) model_ij /\ exists row, dict_get key_eqb (i, j) lines = Some row.
Proof.
  rewrite cx_get_one, in_model_ij, dict_mem_get. tauto.
Qed.

(** What a successful build stores in [eq1] and [eq2], for any tables. *)
Lemma flow_constraints_of_build gens demands lines m (i j : Z) :
  build gens demands lines = Ok m ->
  (cx_get lines (i, j) = 1 ->
   exists row c1 c2,
     dict_get key_eqb (i, j) lines = Some row /\
     eq1 m !! (i, j) = Some c1 /\
     eq2 m !! (i, j) = Some c2 /\
     forall rho,
       (holds rho c1 <->
        rho (var_Pij i j) = flow_P_rhs rho i j (theta_spec row) (z_spec row)) /\
       (holds rho c2 <->
        rho (var_Qij i j) = flow_Q_rhs rho i j (theta_spec row) (z_spec row))) /\
  (cx_get lines (i, j) <> 1 ->
   eq1 m !! (i, j) = None /\ eq2 m !! (i, j) = None).
Proof.
  intros Hb.
  destruct (build_inv _ _ _ _ Hb) as (m0 & v & a & _ & H1 & H2 & _).
  pose proof (indexed_constraint_lookup _ _ _ (i, j) H1) as L1.
  pose proof (indexed_constraint_lookup _ _ _ (i, j) H2) as L2.
  split.
  - intros Hcx. destruct (cx_get_row _ _ _ Hcx) as (Hin & row & Hrow).
    apply list_elem_of_In in Hin.
    rewrite decide_True in L1, L2 by exact Hin.
    destruct (eq1_rule_on _ _ _ _ Hcx Hrow) as (c1 & E1 & S1).
    destruct (eq2_rule_on _ _ _ _ Hcx Hrow) as (c2 & E2 & S2).
    rewrite E1 in L1. rewrite E2 in L2.
    exists row, c1, c2. repeat split; auto; try apply S1; try apply S2.
  - intros Hcx.
    rewrite (eq1_rule_off _ _ _ Hcx) in L1. rewrite (eq2_rule_off _ _ _ Hcx) in L2.
    split; [rewrite L1|rewrite L2]; now destruct (decide _).
Qed.

Example cx_forward_only : cx_get LN (1, 2) = 1 /\ cx_get LN (2, 1) = 0.
Proof. split; reflexivity. Qed.

Example eq1_line_3_4 :
  let row := mkLine 0.00297 0.0297 0.00674 400 in
  eq1 model !! (3, 4) =
  Some (Equal (Ref (var_Pij 3 4))
    (Div (Sub (Mul (Pow (Ref (var_V 3)) 2) (Num (cos (th_of row))))
              (Mul (Mul (Ref (var_V 3)) (Ref (var_V 4)))
                   (Cos (Add (Sub (Ref (var_Va 3)) (Ref (var_Va 4)))
                             (Num (th_of row))))))
         (Num (z_of row)))) /\
  eq1 model !! (4, 3) = None.
Proof. split; reflexivity. Qed.

(** C1: in the built model, the pairs with [cx = 1] are the six declared
    lines (not their reverses); each of them carries the active and the
    reactive flow equation with z = sqrt(x^2 + r^2) and theta = atan(x/r)
    (pi/2 if r = 0) of its row of the line table; no other ordered pair has
    a flow constraint. *)
Theorem C1_flow_equations (i j : Z) :
  (cx_get LN (i, j) = 1 <-> In (i, j) declared_lines) /\
  (cx_get LN (i, j) = 1 ->
   exists row c1 c2,
     dict_get key_eqb (i, j) LN = Some row /\
     eq1 model !! (i, j) = Some c1 /\
     eq2 model !! (i, j) = Some c2 /\
     forall rho,
       (holds rho c1 <->
        rho (var_Pij i j) = flow_P_rhs rho i j (theta_spec row) (z_spec row)) /\
       (holds rho c2 <->
        rho (var_Qij i j) = flow_Q_rhs rho i j (theta_spec row) (z_spec row))) /\
  (cx_get LN (i, j) <> 1 ->
   eq1 model !! (i, j) = None /\ eq2 model !! (i, j) = None).
Proof.
  split; [apply cx_LN|].
  apply (flow_constraints_of_build GenD BD LN model i j built_ok).
Qed.

(** ** The nodal balances (lines 96-110) *)

Lemma eval_inflow rho flow lines i :
  eval rho (py_sum (map (fun j => Ref (flow j i)) (inflow lines i))) =
  inflow_sum rho flow lines i.
Proof.
  rewrite eval_py_sum, map_map. reflexivity.
Qed.

Lemma eq3_rule_on demands lines i row :
  dict_get Z.eqb i demands = Some row ->
  exists c, eq3_rule demands lines i = Ok (Some c) /\
    forall rho, holds rho c <->
      (rho (var_Pg i) - Q2R (Pd row) / 100)%R = inflow_sum rho var_Pij lines i.
Proof.
  intros E. unfold eq3_rule, dict_mem, getitem. rewrite E. cbn [bind].
  eexists. split; [reflexivity|].
  intros rho. unfold holds. rewrite eval_inflow. cbn [eval].
  rewrite per_unit_eq. reflexivity.
Qed.

Lemma eq4_rule_on demands lines i row :
  dict_get Z.eqb i demands = Some row ->
  exists c, eq4_rule demands lines i = Ok (Some c) /\
    forall rho, holds rho c <->
      (rho (var_Qg i) - Q2R (Qd row) / 100)%R = inflow_sum rho var_Qij lines i.
Proof.
  intros E. unfold eq4_rule, dict_mem, getitem. rewrite E. cbn [bind].
  eexists. split; [reflexivity|].
  intros rho. unfold holds. rewrite eval_inflow. cbn [eval].
  rewrite per_unit_eq. reflexivity.
Qed.

Lemma eq3_rule_off demands lines i :
  dict_get Z.eqb i demands = None -> eq3_rule demands lines i = Ok None.
Proof. intros E. unfold eq3_rule, dict_mem. now rewrite E. Qed.

Lemma eq4_rule_off demands lines i :
  dict_get Z.eqb i demands = None -> eq4_rule demands lines i = Ok None.
Proof. intros E. unfold eq4_rule, dict_mem. now rewrite E. Qed.

(** What a successful build stores in [eq3] and [eq4], for any tables. *)
Lemma balance_constraints_of_build gens demands lines m (i : Z) :
  build gens demands lines = Ok m ->
  (forall row, In i model_i -> dict_get Z.eqb i demands = Some row ->
   exists c3 c4,
     eq3 m !! i = Some c3 /\
     eq4 m !! i = Some c4 /\
     forall rho,
       (holds rho c3 <->
        (rho (var_Pg i) - Q2R (Pd row) / 100)%R = inflow_sum rho var_Pij lines i) /\
       (holds rho c4 <->
        (rho (var_Qg i) - Q2R (Qd row) / 100)%R = inflow_sum rho var_Qij lines i)) /\
  (dict_get Z.eqb i demands = None ->
   eq3 m !! i = None /\ eq4 m !! i = None).
Proof.
  intros Hb.
  destruct (build_inv _ _ _ _ Hb) as (m0 & v & a & _ & _ & _ & H3 & H4 & _).
  pose proof (indexed_constraint_lookup _ _ _ i H3) as L3.
  pose proof (indexed_constraint_lookup _ _ _ i H4) as L4.
  split.
  - intros row Hin Hrow. apply list_elem_of_In in Hin.
    rewrite decide_True in L3, L4 by exact Hin.
    destruct (eq3_rule_on _ lines _ _ Hrow) as (c3 & E3 & S3).
    destruct (eq4_rule_on _ lines _ _ Hrow) as (c4 & E4 & S4).
    rewrite E3 in L3. rewrite E4 in L4.
    exists c3, c4. repeat split; auto; try apply S3; try apply S4.
  - intros Hnone.
    rewrite (eq3_rule_off _ lines _ Hnone) in L3.
    rewrite (eq4_rule_off _ lines _ Hnone) in L4.
    split; [rewrite L3|rewrite L4]; now destruct (decide _).
Qed.

Lemma inflow_LN (i j : Z) : In j (inflow LN i) <-> In (j, i) declared_lines.
Proof.
  unfold inflow. rewrite List.filter_In, Z.eqb_eq, cx_LN. split; [tauto|].
  intros H. split; [|exact H]. simpl in H.
  repeat (destruct H as [[= <- <-]|H]; [simpl; tauto|]); contradiction.
Qed.

Lemma BD_total (i : Z) :
  In i model_i -> exists row, dict_get Z.eqb i BD = Some row.
Proof.
  simpl. intros [<-|[<-|[<-|[<-|[<-|[]]]]]]; eexists; reflexivity.
Qed.

Example eq3_bus3 :
  eq3 model !! 3 =
  Some (Equal (Sub (Ref (var_Pg 3)) (Num (per_unit 300)))
              (Add (Add (Num 0) (Ref (var_Pij 1 3))) (Ref (var_Pij 2 3)))).
Proof. reflexivity. Qed.

Example eq3_bus1_no_inflow :
  eq3 model !! 1 =
  Some (Equal (Sub (Ref (var_Pg 1)) (Num (per_unit 100))) (Num 0)).
Proof. reflexivity. Qed.

Example balance_skipped_without_entry :
  exists m,
    build GenD BD_without_2 LN = Ok m /\
    eq3 m !! 2 = None /\ eq4 m !! 2 = None /\
    eq3 m !! 3 =
    Some (Equal (Sub (Ref (var_Pg 3)) (Num (per_unit 300)))
                (Add (Add (Num 0) (Ref (var_Pij 1 3))) (Ref (var_Pij 2 3)))).
Proof.
  eexists. split; [vm_compute; reflexivity|]. repeat split.
Qed.

(** C2: every bus of this data has a demand entry and carries the real and
    the reactive balance, whose right-hand side sums the flow variables
    [(j, i)] over the buses [j] with [cx(j, i) = 1], that is over the
    declared directions only; whatever the demand table, a bus without an
    entry gets no balance constraint. *)
Theorem C2_balance_equations :
  (forall i, In i model_i ->
     exists row c3 c4,
       dict_get Z.eqb i BD = Some row /\
       eq3 model !! i = Some c3 /\
       eq4 model !! i = Some c4 /\
       forall rho,
         (holds rho c3 <->
          (rho (var_Pg i) - Q2R (Pd row) / 100)%R = inflow_sum rho var_Pij LN i) /\
         (holds rho c4 <->
          (rho (var_Qg i) - Q2R (Qd row) / 100)%R = inflow_sum rho var_Qij LN i)) /\
  (forall demands m i,
     build GenD demands LN = Ok m ->
     dict_get Z.eqb i demands = None ->
     eq3 m !! i = None /\ eq4 m !! i = None) /\
  (forall i j,
     In j (List.filter (fun j => cx_get LN (j, i) =? 1) model_j) <->
     In (j, i) declared_lines).
Proof.
  split; [|split].
  - intros i Hin. destruct (BD_total i Hin) as (row & Hrow).
    destruct (balance_constraints_of_build _ _ _ _ i built_ok) as [Hon _].
    destruct (Hon row Hin Hrow) as (c3 & c4 & H).
    exists row, c3, c4. tauto.
  - intros demands m i Hb Hnone.
    now apply (balance_constraints_of_build _ _ _ _ i Hb).
  - apply inflow_LN.
Qed.

(** ** The objective (lines 112-122) *)

Lemma eval_cost_term rho (g : Z * GenRow) :
  eval rho (cost_term g) = cost_spec (rho (var_Pg (fst g))) (Q2R (b (snd g))).
Proof. unfold cost_term, cost_spec. cbn [eval]. ring. Qed.

Lemma eval_objective_rule rho gens :
  eval rho (objective_rule gens) =
  sum_R (map (fun g => cost_spec (rho (var_Pg (fst g))) (Q2R (b (snd g)))) gens).
Proof.
  unfold objective_rule. rewrite eval_py_sum, map_map.
  f_equal. apply map_ext. intros g. apply eval_cost_term.
Qed.

Lemma vars_objective_rule gens (v : var) :
  In v (vars_of (objective_rule gens)) ->
  exists i, In i (map fst gens) /\ v = var_Pg i.
Proof.
  unfold objective_rule, py_sum. rewrite vars_fold_Add. cbn [vars_of app].
  rewrite in_flat_map. intros (e & Hin & Hv).
  apply in_map_iff in Hin as (g & <- & Hg).
  exists (fst g). split; [now apply in_map|].
  cbn in Hv. intuition congruence.
Qed.

(** C3: the objective of the built model is minimised; its value is the sum,
    over the generator table (buses 1, 3, 4, 5 with b = 3, 5, 2, 1), of
    Pg*b*Sbase + Pg^2*b*Sbase^2 + b with Sbase = 100; it mentions no variable
    but Pg of those four buses, so Pg[2] does not occur. *)
Theorem C3_objective :
  exists e,
    objective model = Some (mkObjective minimize e) /\
    (forall rho,
       eval rho e =
       sum_R (map (fun g => cost_spec (rho (var_Pg (fst g))) (Q2R (b (snd g)))) GenD)) /\
    map (fun g => (fst g, b (snd g))) GenD = [(1, 3%Q); (3, 5%Q); (4, 2%Q); (5, 1%Q)] /\
    Sbase = 100 /\
    (forall v, In v (vars_of e) ->
       In v [var_Pg 1; var_Pg 3; var_Pg 4; var_Pg 5]) /\
    ~ In (var_Pg 2) (vars_of e).
Proof.
  destruct (build_inv _ _ _ _ built_ok) as (m0 & v & a & _ & _ & _ & _ & _ & Ho & _).
  exists (objective_rule GenD). split; [exact Ho|].
  split; [intros rho; apply eval_objective_rule|].
  split; [reflexivity|]. split; [reflexivity|].
  assert (Hv : forall v, In v (vars_of (objective_rule GenD)) ->
                         In v [var_Pg 1; var_Pg 3; var_Pg 4; var_Pg 5]).
  { intros w Hw. destruct (vars_objective_rule _ _ Hw) as (i & Hi & ->).
    simpl in Hi. simpl. intuition (subst; auto). }
  split; [exact Hv|].
  intros H2. apply Hv in H2. simpl in H2. intuition discriminate.
Qed.

(** ** The variables of the built model and their bounds (lines 56-79) *)

Lemma lookup_off_bus {A : Type} (m : gmap Z A) (i : Z) :
  dom m = list_to_set model_i -> ~ In i model_i -> m !! i = None.
Proof.
  intros Hdom Hi. apply not_elem_of_dom. rewrite Hdom, elem_of_list_to_set.
  now rewrite list_elem_of_In.
Qed.

Lemma lookup_off_pair {A : Type} (m : gmap (Z * Z) A) (k : Z * Z) :
  dom m = list_to_set model_ij -> ~ In k model_ij -> m !! k = None.
Proof.
  intros Hdom Hi. apply not_elem_of_dom. rewrite Hdom, elem_of_list_to_set.
  now rewrite list_elem_of_In.
Qed.

Ltac on_bus H :=
  simpl in H; destruct H as [<-|[<-|[<-|[<-|[<-|[]]]]]].

Lemma Pg_model_on (i : Z) : In i model_i -> Pg model !! i = Some (Pg_entry i).
Proof. intros H. on_bus H; reflexivity. Qed.

Lemma Qg_model_on (i : Z) : In i model_i -> Qg model !! i = Some (Qg_entry i).
Proof. intros H. on_bus H; reflexivity. Qed.

Lemma Va_model_on (i : Z) : In i model_i -> Va model !! i = Some (Va_entry i).
Proof. intros H. on_bus H; reflexivity. Qed.

Lemma V_model_on (i : Z) : In i model_i -> V model !! i = Some (V_entry i).
Proof. intros H. on_bus H; reflexivity. Qed.

Lemma Pij_model_on (i j : Z) :
  In i model_i -> In j model_j -> Pij model !! (i, j) = Some (Pij_entry (i, j)).
Proof. intros Hi Hj. on_bus Hi; on_bus Hj; reflexivity. Qed.

Lemma Qij_model_on (i j : Z) :
  In i model_i -> In j model_j -> Qij model !! (i, j) = Some new_var.
Proof. intros Hi Hj. on_bus Hi; on_bus Hj; reflexivity. Qed.

Lemma Pg_model_off (i : Z) : ~ In i model_i -> Pg model !! i = None.
Proof. apply lookup_off_bus. vm_compute. reflexivity. Qed.

Lemma Qg_model_off (i : Z) : ~ In i model_i -> Qg model !! i = None.
Proof. apply lookup_off_bus. vm_compute. reflexivity. Qed.

Lemma Va_model_off (i : Z) : ~ In i model_i -> Va model !! i = None.
Proof. apply lookup_off_bus. vm_compute. reflexivity. Qed.

Lemma V_model_off (i : Z) : ~ In i model_i -> V model !! i = None.
Proof. apply lookup_off_bus. vm_compute. reflexivity. Qed.

Lemma Pij_model_off (k : Z * Z) : ~ In k model_ij -> Pij model !! k = None.
Proof. apply lookup_off_pair. vm_compute. reflexivity. Qed.

Lemma Qij_model_off (k : Z * Z) : ~ In k model_ij -> Qij model !! k = None.
Proof. apply lookup_off_pair. vm_compute. reflexivity. Qed.

Lemma GenD_keys : map fst GenD = [1; 3; 4; 5].
Proof. reflexivity. Qed.

(** C4: the generator buses are 1, 3, 4, 5; for them Pg lies in
    [pmin, pmax]/Sbase and Qg in [Qmin, Qmax]/Sbase, and for no other bus;
    Va of every bus lies in [-pi/2, pi/2]; V of no bus has a bound; Pg[2] and
    Qg[2] exist, unbounded, unfixed and without a value. *)
Theorem C4_variable_bounds :
  map fst GenD = [1; 3; 4; 5] /\
  (forall i, In i model_i ->
     exists pg qg va v,
       Pg model !! i = Some pg /\ Qg model !! i = Some qg /\
       Va model !! i = Some va /\ V model !! i = Some v /\
       match dict_get Z.eqb i GenD with
       | Some row =>
           lb pg = Some (Q2R (pmin row) / 100)%R /\
           ub pg = Some (Q2R (pmax row) / 100)%R /\
           lb qg = Some (Q2R (Qmin row) / 100)%R /\
           ub qg = Some (Q2R (Qmax row) / 100)%R
       | None =>
           lb pg = None /\ ub pg = None /\ lb qg = None /\ ub qg = None
       end /\
       lb va = Some (- PI / 2)%R /\ ub va = Some (PI / 2)%R /\
       lb v = None /\ ub v = None) /\
  Pg model !! 2 = Some new_var /\
  Qg model !! 2 = Some new_var.
Proof.
  split; [reflexivity|]. split; [|split; reflexivity].
  intros i Hi.
  exists (Pg_entry i), (Qg_entry i), (Va_entry i), (V_entry i).
  rewrite Pg_model_on, Qg_model_on, Va_model_on, V_model_on by exact Hi.
  repeat (split; [reflexivity|]).
  split; [|repeat split].
  unfold Pg_entry, Qg_entry.
  destruct (dict_get Z.eqb i GenD) as [row|]; cbn [lb ub new_var].
  - rewrite !per_unit_eq. repeat split.
  - repeat split.
Qed.

(** C5, as it holds: for every ordered pair of buses, Pij is bounded to
    [-limit, limit]/Sbase of its line when [cx = 1] and is unbounded
    otherwise; Qij is unbounded for every ordered pair. *)
Theorem C5_flow_bounds (i j : Z) :
  In i model_i -> In j model_j ->
  exists p q,
    Pij model !! (i, j) = Some p /\
    Qij model !! (i, j) = Some q /\
    lb q = None /\ ub q = None /\
    (cx_get LN (i, j) = 1 ->
     exists row,
       dict_get key_eqb (i, j) LN = Some row /\
       lb p = Some (- (Q2R (limit row) / 100))%R /\
       ub p = Some (Q2R (limit row) / 100)%R) /\
    (cx_get LN (i, j) <> 1 -> lb p = None /\ ub p = None).
Proof.
  intros Hi Hj. exists (Pij_entry (i, j)), new_var.
  rewrite Pij_model_on, Qij_model_on by assumption.
  repeat (split; [reflexivity|]). unfold Pij_entry. split.
  - intros Hcx. destruct (cx_get_row _ _ _ Hcx) as (_ & row & Hrow).
    exists row. rewrite Hrow. cbn [lb ub].
    now rewrite per_unit_opp, per_unit_eq.
  - intros Hcx. destruct (dict_get key_eqb (i, j) LN) as [row|] eqn:E.
    + exfalso. apply Hcx. apply cx_get_one. repeat split; try assumption.
      apply dict_mem_get. eauto.
    + split; reflexivity.
Qed.

Lemma C5_flow_bounds_witness :
  In 4 model_i /\ In 5 model_j /\
  exists p q,
    Pij model !! (4, 5) = Some p /\
    Qij model !! (4, 5) = Some q /\
    lb q = None /\ ub q = None /\
    (cx_get LN (4, 5) = 1 ->
     exists row,
       dict_get key_eqb (4, 5) LN = Some row /\
       lb p = Some (- (Q2R (limit row) / 100))%R /\
       ub p = Some (Q2R (limit row) / 100)%R) /\
    (cx_get LN (4, 5) <> 1 -> lb p = None /\ ub p = None).
Proof.
  split; [simpl; tauto|]. split; [simpl; tauto|].
  apply (C5_flow_bounds 4 5); simpl; tauto.
Defined.

(** The claim of C5 fails on the reactive flow of a declared line: [(1, 2)]
    has [cx = 1] and its Qij has neither bound. *)
Lemma C5_counterexample :
  cx_get LN (1, 2) = 1 /\
  exists q, Qij model !! (1, 2) = Some q /\ lb q = None /\ ub q = None.
Proof.
  split; [reflexivity|]. exists new_var. repeat split.
Qed.

(** ** The slack bus (lines 124-126) *)

Lemma sqrt101_sq : (sqrt 101 * sqrt 101 = 101)%R.
Proof. apply sqrt_sqrt. lra. Qed.

Lemma sqrt101_pos : (0 < sqrt 101)%R.
Proof. apply sqrt_lt_R0. lra. Qed.

Lemma theta_ratio10 (row : LineRow) :
  Qeq_bool (r row) 0 = false -> (x row == 10 * r row)%Q ->
  theta_spec row = atan 10.
Proof.
  intros Hr Hx. unfold theta_spec. rewrite Hr. f_equal.
  apply Qeq_bool_neq in Hr.
  rewrite (Qeq_eqR _ _ Hx), Q2R_mult.
  assert (Q2R (r row) <> 0%R) by (rewrite Q2R_zero_iff; exact Hr).
  replace (Q2R 10) with 10%R by (unfold Q2R; cbn [Qnum Qden]; lra).
  field. assumption.
Qed.

Lemma z_ratio10 (row : LineRow) :
  (0 <= r row)%Q -> (x row == 10 * r row)%Q ->
  z_spec row = (Q2R (r row) * sqrt 101)%R.
Proof.
  intros Hr Hx. unfold z_spec. apply Qle_Rle in Hr.
  replace (Q2R 0) with 0%R in Hr by (unfold Q2R; cbn [Qnum Qden]; lra).
  rewrite (Qeq_eqR _ _ Hx), Q2R_mult.
  replace (Q2R 10) with 10%R by (unfold Q2R; cbn [Qnum Qden]; lra).
  apply sqrt_lem_1.
  - nra.
  - pose proof sqrt101_pos. nra.
  - transitivity (Q2R (r row) ^ 2 * (sqrt 101 * sqrt 101))%R; [ring|].
    rewrite sqrt101_sq. ring.
Qed.

Lemma cos_atan10 : cos (atan 10) = (1 / sqrt 101)%R.
Proof. rewrite cos_atan. do 2 f_equal. unfold Rsqr. lra. Qed.

Lemma sin_atan10 : sin (atan 10) = (10 / sqrt 101)%R.
Proof. rewrite sin_atan. do 2 f_equal. unfold Rsqr. lra. Qed.

Lemma inv_sqrt101 : (/ sqrt 101 = sqrt 101 / 101)%R.
Proof.
  pose proof sqrt101_sq. pose proof sqrt101_pos.
  apply Rmult_eq_reg_l with (sqrt 101); [|lra]. rewrite Rinv_r by lra. nra.
Qed.

Lemma flow_zero_source rho i j theta zz :
  rho (var_V i) = 0%R ->
  flow_P_rhs rho i j theta zz = 0%R /\ flow_Q_rhs rho i j theta zz = 0%R.
Proof.
  intros H. unfold flow_P_rhs, flow_Q_rhs. rewrite H. unfold Rdiv. split; ring.
Qed.

Lemma flow_zero_equal rho i j theta zz :
  rho (var_V i) = rho (var_V j) -> rho (var_Va i) = rho (var_Va j) ->
  flow_P_rhs rho i j theta zz = 0%R /\ flow_Q_rhs rho i j theta zz = 0%R.
Proof.
  intros HV HA. unfold flow_P_rhs, flow_Q_rhs. rewrite HV, HA.
  replace (rho (var_Va j) - rho (var_Va j) + theta)%R with theta by ring.
  unfold Rdiv. split; ring.
Qed.

Lemma flow34 :
  flow_P_rhs rho_off 3 4 (atan 10) (Q2R 0.00297 * sqrt 101) = (- (90650 / 29997))%R /\
  flow_Q_rhs rho_off 3 4 (atan 10) (Q2R 0.00297 * sqrt 101) = (2500 / 29997)%R.
Proof.
  unfold flow_P_rhs, flow_Q_rhs. cbn [rho_off Z.eqb Pos.eqb orb].
  replace (- atan 10 - 0 + atan 10)%R with 0%R by ring.
  rewrite cos_0, sin_0, cos_atan10, sin_atan10.
  unfold Q2R, Rdiv. cbn [Qnum Qden]. rewrite !Rinv_mult, inv_sqrt101.
  pose proof sqrt101_sq. split; nra.
Qed.

Ltac q2r := unfold Q2R; cbn [Qnum Qden].

Lemma within_new_var (v : R) : within new_var v.
Proof. repeat split. Qed.

Lemma rho_off_Pij_within (i j : Z) :
  In i model_i -> In j model_j -> within (Pij_entry (i, j)) (rho_off (var_Pij i j)).
Proof.
  intros Hi Hj. on_bus Hi; on_bus Hj;
  unfold within, Pij_entry;
  cbn [dict_get key_eqb fst snd Z.eqb Pos.eqb andb LN lb ub fixed limit rho_off new_var];
  rewrite ?per_unit_opp, ?per_unit_eq; q2r; repeat split; lra.
Qed.

Lemma rho_off_Pg_within (i : Z) :
  In i model_i -> within (Pg_entry i) (rho_off (var_Pg i)).
Proof.
  intros Hi. on_bus Hi;
  unfold within, Pg_entry;
  cbn [dict_get Z.eqb Pos.eqb GenD lb ub fixed pmin pmax rho_off new_var];
  rewrite ?per_unit_eq; q2r; repeat split; lra.
Qed.

Lemma rho_off_Qg_within (i : Z) :
  In i model_i -> within (Qg_entry i) (rho_off (var_Qg i)).
Proof.
  intros Hi. on_bus Hi;
  unfold within, Qg_entry;
  cbn [dict_get Z.eqb Pos.eqb GenD lb ub fixed Qmin Qmax rho_off new_var];
  rewrite ?per_unit_eq; q2r; repeat split; lra.
Qed.

Lemma rho_off_Va_within (i : Z) :
  In i model_i -> within (Va_entry i) (rho_off (var_Va i)).
Proof.
  intros Hi. pose proof PI2_1. pose proof (atan_bound 10).
  on_bus Hi; unfold within, Va_entry;
  cbn [Z.eqb Pos.eqb lb ub fixed rho_off]; repeat split; lra.
Qed.

Lemma rho_off_V_within (i : Z) :
  In i model_i -> within (V_entry i) (rho_off (var_V i)).
Proof.
  intros Hi. unfold within, V_entry. cbn [lb ub fixed]. repeat split.
Qed.

Lemma rho_off_flows (i j : Z) (row : LineRow) :
  In (i, j) declared_lines ->
  dict_get key_eqb (i, j) LN = Some row ->
  rho_off (var_Pij i j) = flow_P_rhs rho_off i j (theta_spec row) (z_spec row) /\
  rho_off (var_Qij i j) = flow_Q_rhs rho_off i j (theta_spec row) (z_spec row).
Proof.
  intros Hin Hrow. simpl in Hin.
  destruct Hin as [E|[E|[E|[E|[E|[E|[]]]]]]]; injection E as <- <-;
    injection Hrow as <-.
  1-4: match goal with
       | |- _ = flow_P_rhs _ ?i ?j ?t ?zz /\ _ =>
           destruct (flow_zero_source rho_off i j t zz eq_refl) as [-> ->]
       end; split; reflexivity.
  - rewrite theta_ratio10, z_ratio10 by (try reflexivity; discriminate).
    cbn [r]. destruct flow34 as [-> ->]. split; reflexivity.
  - match goal with
    | |- _ = flow_P_rhs _ ?i ?j ?t ?zz /\ _ =>
        destruct (flow_zero_equal rho_off i j t zz eq_refl eq_refl) as [-> ->]
    end.
    split; reflexivity.
Qed.

Lemma inflow_sum_eq rho flow lines i :
  inflow_sum rho flow lines i = sum_R (map (fun j => rho (flow j i)) (inflow lines i)).
Proof. reflexivity. Qed.

Lemma inflow_lists :
  inflow LN 1 = [] /\ inflow LN 2 = [1] /\ inflow LN 3 = [1; 2] /\
  inflow LN 4 = [3] /\ inflow LN 5 = [1; 4].
Proof. repeat split. Qed.

Lemma rho_off_balances (i : Z) (row : DemandRow) :
  In i model_i ->
  dict_get Z.eqb i BD = Some row ->
  (rho_off (var_Pg i) - Q2R (Pd row) / 100)%R = inflow_sum rho_off var_Pij LN i /\
  (rho_off (var_Qg i) - Q2R (Qd row) / 100)%R = inflow_sum rho_off var_Qij LN i.
Proof.
  intros Hi Hrow. rewrite !inflow_sum_eq.
  destruct inflow_lists as (E1 & E2 & E3 & E4 & E5).
  on_bus Hi; injection Hrow as <-;
    rewrite ?E1, ?E2, ?E3, ?E4, ?E5;
    cbn [map sum_R fold_right rho_off Z.eqb Pos.eqb andb Pd Qd];
    q2r; split; lra.
Qed.

Lemma pair_in_dec (k : Z * Z) : {In k model_ij} + {~ In k model_ij}.
Proof.
  destruct (decide (k ∈ model_ij)); [left|right]; now rewrite <- list_elem_of_In.
Qed.

Lemma rho_off_feasible : feasible model rho_off.
Proof.
  unfold feasible.
  split; [apply within_new_var|].
  split.
  { intros i j d H. destruct (pair_in_dec (i, j)) as [Hin|Hout].
    - apply in_model_ij in Hin as [Hi Hj].
      rewrite Pij_model_on in H by assumption. injection H as <-.
      now apply rho_off_Pij_within.
    - rewrite Pij_model_off in H by assumption. discriminate. }
  split.
  { intros i j d H. destruct (pair_in_dec (i, j)) as [Hin|Hout].
    - apply in_model_ij in Hin as [Hi Hj].
      rewrite Qij_model_on in H by assumption. injection H as <-.
      apply within_new_var.
    - rewrite Qij_model_off in H by assumption. discriminate. }
  split.
  { intros i d H. destruct (in_dec Z.eq_dec i model_i) as [Hi|Hi].
    - rewrite Pg_model_on in H by assumption. injection H as <-.
      now apply rho_off_Pg_within.
    - rewrite Pg_model_off in H by assumption. discriminate. }
  split.
  { intros i d H. destruct (in_dec Z.eq_dec i model_i) as [Hi|Hi].
    - rewrite Qg_model_on in H by assumption. injection H as <-.
      now apply rho_off_Qg_within.
    - rewrite Qg_model_off in H by assumption. discriminate. }
  split.
  { intros i d H. destruct (in_dec Z.eq_dec i model_i) as [Hi|Hi].
    - rewrite Va_model_on in H by assumption. injection H as <-.
      now apply rho_off_Va_within.
    - rewrite Va_model_off in H by assumption. discriminate. }
  split.
  { intros i d H. destruct (in_dec Z.eq_dec i model_i) as [Hi|Hi].
    - rewrite V_model_on in H by assumption. injection H as <-.
      now apply rho_off_V_within.
    - rewrite V_model_off in H by assumption. discriminate. }
  assert (Hflow : forall i j,
    (forall c, eq1 model !! (i, j) = Some c -> holds rho_off c) /\
    (forall c, eq2 model !! (i, j) = Some c -> holds rho_off c)).
  { intros i j.
    destruct (flow_constraints_of_build _ _ _ _ i j built_ok) as [Hon Hoff].
    destruct (Z.eq_dec (cx_get LN (i, j)) 1) as [Hcx|Hcx].
    - destruct (Hon Hcx) as (row & c1 & c2 & Hrow & E1 & E2 & Hsem).
      destruct (rho_off_flows i j row (proj1 (cx_LN i j) Hcx) Hrow) as [HP HQ].
      split; intros c Hc; [rewrite E1 in Hc|rewrite E2 in Hc];
        injection Hc as <-; now apply Hsem.
    - destruct (Hoff Hcx) as [E1 E2].
      split; intros c Hc; [rewrite E1 in Hc|rewrite E2 in Hc]; discriminate. }
  assert (Hbal : forall i,
    (forall c, eq3 model !! i = Some c -> holds rho_off c) /\
    (forall c, eq4 model !! i = Some c -> holds rho_off c)).
  { intros i.
    destruct (balance_constraints_of_build _ _ _ _ i built_ok) as [Hon Hoff].
    destruct (build_inv _ _ _ _ built_ok) as (m0 & v & a & _ & _ & _ & H3 & H4 & _).
    pose proof (indexed_constraint_lookup _ _ _ i H3) as L3.
    pose proof (indexed_constraint_lookup _ _ _ i H4) as L4.
    destruct (in_dec Z.eq_dec i model_i) as [Hi|Hi].
    - destruct (BD_total i Hi) as (row & Hrow).
      destruct (Hon row Hi Hrow) as (c3 & c4 & E3 & E4 & Hsem).
      destruct (rho_off_balances i row Hi Hrow) as [HP HQ].
      split; intros c Hc; [rewrite E3 in Hc|rewrite E4 in Hc];
        injection Hc as <-; now apply Hsem.
    - rewrite decide_False in L3, L4 by (now rewrite list_elem_of_In).
      split; intros c Hc; [rewrite L3 in Hc|rewrite L4 in Hc]; discriminate. }
  split; [intros [i j]; apply Hflow|].
  split; [intros [i j]; apply Hflow|].
  split; intros i; apply Hbal.
Qed.

(** C6, as it holds: bus 1 gets the initial values V = 1 and Va = 0; neither
    variable is fixed and V[1] has no bound, so they do not constrain the
    problem: the built model has a feasible point with V[1] <> 1 and
    Va[1] <> 0. *)
Theorem C6_slack_initial_values :
  (exists v a,
     V model !! 1 = Some v /\ Va model !! 1 = Some a /\
     value v = Some 1%R /\ value a = Some 0%R /\
     fixed v = false /\ fixed a = false /\
     lb v = None /\ ub v = None) /\
  (exists rho,
     feasible model rho /\ rho (var_V 1) <> 1%R /\ rho (var_Va 1) <> 0%R).
Proof.
  split.
  - exists (V_entry 1), (Va_entry 1). repeat split.
  - exists rho_off. split; [exact rho_off_feasible|].
    cbn [rho_off Z.eqb Pos.eqb orb]. split; lra.
Qed.

(** The claim of C6 fails: [rho_off] is a feasible point of the built model
    whose slack voltage magnitude is 0 and whose slack angle is 1. *)
Lemma C6_counterexample :
  feasible model rho_off /\
  rho_off (var_V 1) = 0%R /\ rho_off (var_V 1) <> 1%R /\
  rho_off (var_Va 1) = 1%R /\ rho_off (var_Va 1) <> 0%R.
Proof.
  split; [exact rho_off_feasible|].
  cbn [rho_off Z.eqb Pos.eqb orb]. repeat split; lra.
Qed.

(** ** The reporter (lines 132-164) *)

Lemma print_for_each name (vs : gmap Z VarData) fmt (idx : list Z) (out : list line) :
  (forall i, In i idx -> exists d, vs !! i = Some d) ->
  for_each
    (fun i out =>
       match vs !! i with
       | Some d => Ok (match value d with Some v => out ++ [fmt i v] | None => out end)
       | None => Raise (KeyError name (ix1 i))
       end) idx out =
  Ok (out ++ flat_map (fun i => match vs !! i ≫= value with
                                | Some v => [fmt i v]
                                | None => []
                                end) idx).
Proof.
  revert out. induction idx as [|i idx IH]; intros out Hdom; cbn [for_each flat_map].
  - now rewrite app_nil_r.
  - destruct (Hdom i (or_introl eq_refl)) as (d & Hd). rewrite Hd. cbn [bind].
    rewrite IH by (intros k Hk; apply Hdom; now right).
    cbn [mbind option_bind]. destruct (value d) as [v|]; [|reflexivity].
    now rewrite <- app_assoc.
Qed.

Lemma flat_map_agree {A B : Type} (f g : A -> list B) (l : list A) :
  (forall a, In a l -> f a = g a) -> flat_map f l = flat_map g l.
Proof.
  induction l as [|a l IH]; intros Hfg; cbn [flat_map]; [reflexivity|].
  rewrite (Hfg a (or_introl eq_refl)), IH; [reflexivity|].
  intros a' Ha'. apply Hfg. now right.
Qed.

Lemma print_loop_ok name (vs : gmap Z VarData) (vals : Z -> option R) fmt out :
  (forall i, In i model_i -> exists d, vs !! i = Some d /\ value d = vals i) ->
  print_loop name vs fmt out = Ok (out ++ loop_lines vals fmt).
Proof.
  intros Hdom. unfold print_loop, loop_lines.
  rewrite print_for_each by (intros i Hi; destruct (Hdom i Hi) as (d & Hd & _); eauto).
  do 2 f_equal. apply flat_map_agree. intros i Hi.
  destruct (Hdom i Hi) as (d & -> & <-). reflexivity.
Qed.

Lemma assign_Pg vals (i : Z) :
  In i model_i ->
  exists d, Pg (assign vals model) !! i = Some d /\ value d = vals (var_Pg i).
Proof.
  intros Hi. cbn [assign Pg]. rewrite map_lookup_imap, Pg_model_on by exact Hi.
  eexists. split; reflexivity.
Qed.

Lemma assign_Qg vals (i : Z) :
  In i model_i ->
  exists d, Qg (assign vals model) !! i = Some d /\ value d = vals (var_Qg i).
Proof.
  intros Hi. cbn [assign Qg]. rewrite map_lookup_imap, Qg_model_on by exact Hi.
  eexists. split; reflexivity.
Qed.

Lemma assign_Va vals (i : Z) :
  In i model_i ->
  exists d, Va (assign vals model) !! i = Some d /\ value d = vals (var_Va i).
Proof.
  intros Hi. cbn [assign Va]. rewrite map_lookup_imap, Va_model_on by exact Hi.
  eexists. split; reflexivity.
Qed.

(** The script never raises while printing, whatever the solver returned. *)
Lemma report_ok vals tc :
  report tc (assign vals model) = Ok (status_line tc :: report_body vals).
Proof.
  unfold report, report_loops, report_body.
  rewrite (print_loop_ok "Pg" _ (fun i => vals (var_Pg i))) by apply assign_Pg.
  cbn [bind].
  rewrite (print_loop_ok "Va" _ (fun i => vals (var_Va i))) by apply assign_Va.
  cbn [bind].
  rewrite (print_loop_ok "Pg" _ (fun i => vals (var_Pg i))) by apply assign_Pg.
  cbn [bind].
  rewrite (print_loop_ok "Qg" _ (fun i => vals (var_Qg i))) by apply assign_Qg.
  f_equal. cbn [app]. rewrite <- !app_assoc. reflexivity.
Qed.

Lemma in_loop_lines (vals : Z -> option R) fmt (l : line) :
  In l (loop_lines vals fmt) <->
  exists i v, In i model_i /\ vals i = Some v /\ l = fmt i v.
Proof.
  unfold loop_lines. rewrite in_flat_map. split.
  - intros (i & Hi & Hl). destruct (vals i) as [v|] eqn:E; [|contradiction].
    destruct Hl as [<-|[]]. eauto.
  - intros (i & v & Hi & E & ->). exists i. split; [exact Hi|].
    rewrite E. now left.
Qed.

(** C7: with [optimal] the status line is exactly "Model solved
    successfully!"; with any other termination condition it is the message
    followed by that condition; in both cases the script does not raise and
    goes on to print the same per-bus lines. *)
Theorem C7_status_line (vals : var -> option R) (tc : TerminationCondition) :
  report tc (assign vals model) = Ok (status_line tc :: report_body vals) /\
  status_line optimal = [Text "Model solved successfully!"] /\
  (tc <> optimal ->
   status_line tc =
   [Text "Model could not be solved. Termination condition:"; Text " "; Cond tc]).
Proof.
  split; [apply report_ok|]. split; [reflexivity|].
  intros Htc. destruct tc; try reflexivity. contradiction.
Qed.

(** C8, as it holds: the output is the status line; then, per bus with a Pg
    value, "Generator i: Pg = v" without unit; then, per bus with a Va value,
    "Bus i: Va = v" unscaled; then the header "Active Power Output (Pg) in
    MW:" and "Generator i: Pg = v MW"; then the header "Reactive Power
    Output (Qg) in MVar:" and "Generator i: Qg = v MVar"; Pg and Qg are
    printed multiplied by Sbase; each loop prints exactly one line per bus
    that has a value, in bus order, and none for a bus without, with no
    error. *)
Theorem C8_report_format (vals : var -> option R) (tc : TerminationCondition) :
  report tc (assign vals model) =
  Ok (status_line tc ::
      loop_lines (fun i => vals (var_Pg i)) fmt_Pg_bare ++
      loop_lines (fun i => vals (var_Va i)) fmt_Va ++
      [Text "Active Power Output (Pg) in MW:"] ::
      loop_lines (fun i => vals (var_Pg i)) fmt_Pg_MW ++
      [Text "Reactive Power Output (Qg) in MVar:"] ::
      loop_lines (fun i => vals (var_Qg i)) fmt_Qg_MVar) /\
  (forall i v,
     fmt_Pg_bare i v = [Text "Generator "; Int i; Text ": Pg = "; Float (v * 100)] /\
     fmt_Va i v = [Text "Bus "; Int i; Text ": Va = "; Float v] /\
     fmt_Pg_MW i v =
       [Text "Generator "; Int i; Text ": Pg = "; Float (v * 100); Text " MW"] /\
     fmt_Qg_MVar i v =
       [Text "Generator "; Int i; Text ": Qg = "; Float (v * 100); Text " MVar"]) /\
  (forall (f : Z -> option R) fmt l,
     In l (loop_lines f fmt) <->
     exists i v, In i model_i /\ f i = Some v /\ l = fmt i v) /\
  (forall (f : Z -> option R) fmt,
     (forall i, In i model_i -> f i = None) -> loop_lines f fmt = []).
Proof.
  split; [apply report_ok|]. split; [intros i v; repeat split|].
  split; [apply in_loop_lines|].
  intros f fmt Hnone. unfold loop_lines.
  rewrite (flat_map_agree _ (fun _ => [])).
  - reflexivity.
  - intros i Hi. now rewrite (Hnone i Hi).
Qed.

(** The claim of C8 fails: with a value for Pg[1] and Va[1] only, the output
    has a Pg line without " MW" and two header lines, which are of neither
    shape the specification lists. *)
Lemma C8_counterexample :
  report optimal (assign vals_bus1 model) =
  Ok [ [Text "Model solved successfully!"];
       [Text "Generator "; Int 1; Text ": Pg = "; Float (1 * 100)];
       [Text "Bus "; Int 1; Text ": Va = "; Float 0];
       [Text "Active Power Output (Pg) in MW:"];
       [Text "Generator "; Int 1; Text ": Pg = "; Float (1 * 100); Text " MW"];
       [Text "Reactive Power Output (Qg) in MVar:"] ] /\
  ~ (Pg_MW_form [Text "Generator "; Int 1; Text ": Pg = "; Float (1 * 100)] \/
     Va_form [Text "Generator "; Int 1; Text ": Pg = "; Float (1 * 100)]) /\
  ~ (Pg_MW_form [Text "Active Power Output (Pg) in MW:"] \/
     Va_form [Text "Active Power Output (Pg) in MW:"]) /\
  ~ (Pg_MW_form [Text "Reactive Power Output (Qg) in MVar:"] \/
     Va_form [Text "Reactive Power Output (Qg) in MVar:"]).
Proof.
  split; [rewrite report_ok; reflexivity|].
  repeat split; intros [(i & v & E)|(i & v & E)]; discriminate E.
Qed.

(** ** Lines that leave the bus set *)

Lemma dense_off {K : Type} `{Countable K} (idx : list K) (k : K) :
  ~ In k idx -> dense idx !! k = None.
Proof.
  intros Hk. unfold dense. apply not_elem_of_list_to_map.
  rewrite list_elem_of_In, map_map, map_id. exact Hk.
Qed.

Lemma declare_vars_in_range : Pij_in_range declare_vars.
Proof. intros k Hk. cbn [declare_vars Pij]. now apply dense_off. Qed.

Lemma gen_bounds_body_Pij g m m' :
  gen_bounds_body g m = Ok m' -> Pij m' = Pij m.
Proof.
  unfold gen_bounds_body. intros Hb.
  apply bind_Ok in Hb as (p1 & _ & Hb). apply bind_Ok in Hb as (p2 & _ & Hb).
  apply bind_Ok in Hb as (q1 & _ & Hb). apply bind_Ok in Hb as (q2 & _ & Hb).
  now injection Hb as <-.
Qed.

Lemma gen_bounds_Pij gens m m' :
  gen_bounds gens m = Ok m' -> Pij m' = Pij m.
Proof.
  unfold gen_bounds. revert m. induction gens as [|g gens IH]; intros m; cbn [for_each].
  - now intros [= <-].
  - intros Hb. apply bind_Ok in Hb as (m1 & H1 & Hb).
    rewrite (IH _ Hb). now apply gen_bounds_body_Pij in H1.
Qed.

Lemma flow_bounds_body_in_range l m m' :
  Pij_in_range m -> flow_bounds_body l m = Ok m' -> Pij_in_range m'.
Proof.
  unfold flow_bounds_body. intros Hr Hb.
  apply bind_Ok in Hb as (p1 & H1 & Hb). apply bind_Ok in Hb as (p2 & H2 & Hb).
  injection Hb as <-.
  apply at_index_Ok in H1 as (d1 & Hd1 & ->).
  apply at_index_Ok in H2 as (d2 & Hd2 & ->).
  intros k Hk. unfold set_Pij. cbn [Pij].
  destruct (decide (fst l = k)) as [E|E].
  - rewrite E in Hd1. rewrite (Hr k Hk) in Hd1. discriminate.
  - rewrite !lookup_insert_ne by exact E. now apply Hr.
Qed.

Lemma flow_bounds_body_raises l m :
  Pij_in_range m -> ~ In (fst l) model_ij ->
  flow_bounds_body l m = Raise (KeyError "Pij" (ix2 (fst l))).
Proof.
  intros Hr Hk. unfold flow_bounds_body, at_index. now rewrite (Hr _ Hk).
Qed.

Lemma flow_bounds_raises lines m k row :
  Pij_in_range m -> In (k, row) lines -> ~ In k model_ij ->
  exists e, flow_bounds lines m = Raise e.
Proof.
  unfold flow_bounds. revert m.
  induction lines as [|l lines IH]; intros m Hr Hin Hk; [contradiction|].
  cbn [for_each]. destruct Hin as [->|Hin].
  - rewrite (flow_bounds_body_raises (k, row) m Hr Hk). cbn [bind]. eauto.
  - destruct (flow_bounds_body l m) as [m1|e] eqn:E1; cbn [bind]; [|eauto].
    apply (IH m1); auto. exact (flow_bounds_body_in_range _ _ _ Hr E1).
Qed.

(** C9: whatever the tables, if a line names a bus outside the bus set, the
    part of the script that precedes the first constraint raises, so the
    build as a whole raises that same exception and returns no model. *)
Theorem C9_line_outside_bus_set gens demands lines (k : Z * Z) (row : LineRow) :
  In (k, row) lines ->
  ~ In (fst k) model_i \/ ~ In (snd k) model_j ->
  exists e,
    build_bounds gens lines = Raise e /\
    build gens demands lines = Raise e.
Proof.
  intros Hin Hbad.
  assert (Hk : ~ In k model_ij).
  { destruct k as [i j]. rewrite in_model_ij. cbn [fst snd] in Hbad. tauto. }
  assert (Hraise : exists e, build_bounds gens lines = Raise e).
  { unfold build_bounds.
    destruct (bij lines) as [bs|e]; cbn [bind]; [|eauto].
    destruct (gen_bounds gens declare_vars) as [m|e] eqn:Eg; cbn [bind]; [|eauto].
    apply (flow_bounds_raises lines _ k row); auto.
    intros k' Hk'. cbn [angle_bounds set_Va Pij].
    rewrite (gen_bounds_Pij _ _ _ Eg). now apply declare_vars_in_range. }
  destruct Hraise as (e & He). exists e. split; [exact He|].
  unfold build. now rewrite He.
Qed.

Lemma C9_line_outside_bus_set_witness :
  In ((5, 6), mkLine 0.00297 0.0297 0.00674 240) LN_bus6 /\
  ~ In 6 model_j /\
  exists e,
    build_bounds GenD LN_bus6 = Raise e /\
    build GenD BD LN_bus6 = Raise e.
Proof.
  split; [simpl; tauto|]. split; [simpl; lia|].
  apply (C9_line_outside_bus_set GenD BD LN_bus6 (5, 6)
           (mkLine 0.00297 0.0297 0.00674 240)).
  - simpl. tauto.
  - right. simpl. lia.
Defined.

Example build_LN_bus6 :
  build GenD BD LN_bus6 = Raise (KeyError "Pij" [5; 6]).
Proof. vm_compute. reflexivity. Qed.

(** ** Divisors on the line table of the source *)

Lemma LN_rows_nonzero (k : Z * Z) (row : LineRow) :
  In (k, row) LN ->
  Qeq_bool (x row) 0 = false /\ Qeq_bool (r row) 0 = false.
Proof.
  simpl. intros H.
  repeat (destruct H as [[= <- <-]|H]; [split; reflexivity|]).
  contradiction.
Qed.

Lemma LN_flow_shape (k : Z * Z) (row : LineRow) :
  In (k, row) LN ->
  exists lhs1 num1 lhs2 num2,
    eq1 model !! k = Some (Equal lhs1 (Div num1 (Num (z_of row)))) /\
    eq2 model !! k = Some (Equal lhs2 (Div num2 (Num (z_of row)))).
Proof.
  simpl. intros H.
  repeat (destruct H as [[= <- <-]|H];
          [do 4 eexists; split; reflexivity|]).
  contradiction.
Qed.

Lemma bij_LN :
  bij LN =
  Ok (map (fun kv => (fst kv, (1 / x (snd kv))%Q)) LN).
Proof. reflexivity. Qed.

(** C10: on every line of the table of the source, x and r are not zero;
    so 1/x is computed without exception, theta is atan(x/r) and not the
    pi/2 of the r = 0 branch, z = sqrt(x^2 + r^2) is positive, and the
    divisor of both flow equations of the line is that positive z. *)
Theorem C10_divisors_nonzero (k : Z * Z) (row : LineRow) :
  In (k, row) LN ->
  ~ (x row == 0)%Q /\ ~ (r row == 0)%Q /\
  py_div 1 (x row) = Ok (1 / x row)%Q /\
  (exists d, bij LN = Ok d /\ In (k, (1 / x row)%Q) d) /\
  Qeq_bool (r row) 0 = false /\
  th_of row = atan (Q2R (x row) / Q2R (r row)) /\
  Q2R (x row) <> 0%R /\ Q2R (r row) <> 0%R /\
  z_of row = sqrt (Q2R (x row) ^ 2 + Q2R (r row) ^ 2)%R /\
  (0 < z_of row)%R /\
  exists lhs1 num1 lhs2 num2,
    eq1 model !! k = Some (Equal lhs1 (Div num1 (Num (z_of row)))) /\
    eq2 model !! k = Some (Equal lhs2 (Div num2 (Num (z_of row)))).
Proof.
  intros Hin. destruct (LN_rows_nonzero k row Hin) as [Hx Hr].
  assert (Hx' : ~ (x row == 0)%Q) by now apply Qeq_bool_neq.
  assert (Hr' : ~ (r row == 0)%Q) by now apply Qeq_bool_neq.
  split; [exact Hx'|]. split; [exact Hr'|].
  split; [unfold py_div; now rewrite Hx|].
  split.
  { eexists. split; [apply bij_LN|].
    apply (in_map (fun kv => (fst kv, (1 / x (snd kv))%Q)) LN (k, row) Hin). }
  split; [exact Hr|].
  split; [rewrite th_of_eq; now rewrite Hr|].
  split; [now rewrite Q2R_zero_iff|]. split; [now rewrite Q2R_zero_iff|].
  split; [apply z_of_eq|]. split; [now apply z_of_pos|].
  now apply LN_flow_shape.
Qed.

Lemma C10_divisors_nonzero_witness :
  In ((3, 4), mkLine 0.00297 0.0297 0.00674 400) LN /\
  ~ (0.0297 == 0)%Q /\ ~ (0.00297 == 0)%Q /\
  (0 < z_of (mkLine 0.00297 0.0297 0.00674 400))%R.
Proof.
  split; [simpl; tauto|].
  pose proof (C10_divisors_nonzero (3, 4) (mkLine 0.00297 0.0297 0.00674 400)) as H.
  cbn [x r] in H.
  destruct H as (Hx & Hr & _ & _ & _ & _ & _ & _ & _ & Hz & _).
  - simpl. tauto.
  - exact (conj Hx (conj Hr Hz)).
Defined.


(** * Further properties of the script, beyond the claims *)

(** ** The connectivity dictionary, for any line table (lines 52-53) *)

Lemma cx_entry (lines : dict (Z * Z) LineRow) (i j : Z) :
  (In i model_i /\ In j model_j ->
   dict_get key_eqb (i, j) (cx lines) =
   Some (if dict_mem key_eqb (i, j) lines then 1 else 0)) /\
  (~ (In i model_i /\ In j model_j) ->
   dict_get key_eqb (i, j) (cx lines) = None).
Proof.
  unfold cx, key_eqb.
  cbn [model_i model_j flat_map map app dict_get fst snd].
  bus_split i; bus_split j; off_bus; cbn [andb Z.eqb Pos.eqb];
    (split; [intros [Hi Hj]; try reflexivity; contradiction
            | intros Hn; try reflexivity; exfalso; apply Hn; simpl; tauto]).
Qed.

(** The dictionary [cx] has one entry per ordered pair of buses, 25 in all,
    each 0 or 1; [cx.get((i, j), 0)] is 1 exactly when both buses are in the
    bus set and [(i, j)] is a key of the line table, and it falls back on
    its default 0 exactly for the pairs outside the bus set. *)
Theorem cx_get_zero_or_one (lines : dict (Z * Z) LineRow) (i j : Z) :
  length (cx lines) = 25%nat /\
  (cx_get lines (i, j) = 0 \/ cx_get lines (i, j) = 1) /\
  (cx_get lines (i, j) = 1 <->
   In i model_i /\ In j model_j /\
   exists row, dict_get key_eqb (i, j) lines = Some row) /\
  (dict_get key_eqb (i, j) (cx lines) = None <->
   ~ (In i model_i /\ In j model_j)).
Proof.
  destruct (cx_entry lines i j) as [Hon Hoff].
  split; [reflexivity|]. split; [|split].
  - unfold cx_get.
    destruct (in_dec Z.eq_dec i model_i) as [Hi|Hi];
      destruct (in_dec Z.eq_dec j model_j) as [Hj|Hj];
      try (rewrite Hoff by tauto; now left).
    rewrite Hon by tauto. destruct (dict_mem key_eqb (i, j) lines); auto.
  - rewrite cx_get_one, dict_mem_get. reflexivity.
  - split.
    + intros E [Hi Hj]. rewrite Hon in E by tauto. discriminate.
    + exact Hoff.
Qed.

(** ** Susceptance, impedance and angle of a line (lines 43-50) *)

Lemma bij_all_nonzero (lines : dict (Z * Z) LineRow) :
  (forall k row, In (k, row) lines -> ~ (x row == 0)%Q) ->
  bij lines = Ok (map (fun kv => (fst kv, (1 / x (snd kv))%Q)) lines).
Proof.
  unfold bij. induction lines as [|[k row] lines IH]; intros Hnz; cbn [comprehend map].
  - reflexivity.
  - unfold py_div at 1. cbn [fst snd].
    destruct (Qeq_bool (x row) 0) eqn:E.
    + apply Qeq_bool_iff in E. exfalso. apply (Hnz k row); [now left|exact E].
    + cbn [bind]. rewrite IH; [reflexivity|].
      intros k' row' Hin. apply (Hnz k' row'). now right.
Qed.

Lemma bij_some_zero (lines : dict (Z * Z) LineRow) (k : Z * Z) (row : LineRow) :
  In (k, row) lines -> (x row == 0)%Q -> bij lines = Raise ZeroDivisionError.
Proof.
  unfold bij. induction lines as [|[k' row'] lines IH]; intros Hin Hz; [contradiction|].
  cbn [comprehend]. unfold py_div at 1. cbn [fst snd].
  destruct (Qeq_bool (x row') 0) eqn:E; [reflexivity|]. cbn [bind].
  destruct Hin as [[= -> ->]|Hin].
  - apply Qeq_bool_neq in E. contradiction.
  - now rewrite (IH Hin Hz).
Qed.

Lemma some_zero_dec (lines : dict (Z * Z) LineRow) :
  (forall k row, In (k, row) lines -> ~ (x row == 0)%Q) \/
  (exists k row, In (k, row) lines /\ (x row == 0)%Q).
Proof.
  induction lines as [|[k row] lines [IH|(k' & row' & Hin & Hz)]].
  - left. intros k row [].
  - destruct (Qeq_bool (x row) 0) eqn:E.
    + right. exists k, row. split; [now left|now apply Qeq_bool_iff].
    + left. intros k' row' [[= <- <-]|Hin]; [now apply Qeq_bool_neq|eauto].
  - right. exists k', row'. split; [now right|exact Hz].
Qed.

(** The comprehension [bij] succeeds exactly when no line has reactance
    zero, and then holds 1/x per line, in table order; when it fails, the
    exception is [ZeroDivisionError]. *)
Theorem bij_succeeds_iff_no_zero_reactance (lines : dict (Z * Z) LineRow) :
  ((exists d, bij lines = Ok d) <->
   forall k row, In (k, row) lines -> ~ (x row == 0)%Q) /\
  (forall d, bij lines = Ok d ->
   d = map (fun kv => (fst kv, (1 / x (snd kv))%Q)) lines) /\
  (forall e, bij lines = Raise e -> e = ZeroDivisionError).
Proof.
  destruct (some_zero_dec lines) as [Hnz|(k & row & Hin & Hz)].
  - rewrite (bij_all_nonzero lines Hnz). split; [|split].
    + split; [intros _; exact Hnz|eauto].
    + now intros d [= <-].
    + discriminate.
  - rewrite (bij_some_zero lines k row Hin Hz). split; [|split].
    + split; [intros (d & E); discriminate E|].
      intros Hnz. exfalso. exact (Hnz k row Hin Hz).
    + discriminate.
    + now intros e [= <-].
Qed.


(** ** Indexed variables keep their index set *)

Lemma dense_lookup {K : Type} `{Countable K} (idx : list K) (k : K) :
  In k idx -> dense idx !! k = Some new_var.
Proof.
  unfold dense. induction idx as [|k0 idx IH]; [contradiction|].
  cbn [map]. rewrite list_to_map_cons. intros [->|Hin].
  - apply lookup_insert_eq.
  - destruct (decide (k0 = k)) as [->|Hne]; [apply lookup_insert_eq|].
    rewrite lookup_insert_ne by exact Hne. auto.
Qed.

Lemma dense_on_dense {K : Type} `{Countable K} (idx : list K) :
  dense_on idx (dense idx).
Proof.
  intros k. split.
  - intros (d & Hd). destruct (decide (k ∈ idx)) as [Hin|Hout].
    + now apply list_elem_of_In.
    + rewrite dense_off in Hd by (now rewrite <- list_elem_of_In). discriminate.
  - intros Hin. rewrite (dense_lookup idx k Hin). eauto.
Qed.

Lemma dense_on_insert {K : Type} `{Countable K} (idx : list K)
    (vs : gmap K VarData) (k : K) (d d' : VarData) :
  dense_on idx vs -> vs !! k = Some d -> dense_on idx (<[k := d']> vs).
Proof.
  intros Hd Hk k'. rewrite <- (Hd k').
  destruct (decide (k = k')) as [<-|Hne].
  - rewrite lookup_insert_eq, Hk. split; eauto.
  - now rewrite lookup_insert_ne.
Qed.

Lemma dense_on_fmap {K : Type} `{Countable K} (idx : list K)
    (vs : gmap K VarData) (f : VarData -> VarData) :
  dense_on idx vs -> dense_on idx (f <$> vs).
Proof.
  intros Hd k. rewrite <- (Hd k), lookup_fmap.
  destruct (vs !! k) as [d|]; cbn; split; intros (d' & E); eauto; discriminate.
Qed.

Lemma at_index_present {K : Type} `{Countable K} name ix (k : K) f
    (vs : gmap K VarData) (d : VarData) :
  vs !! k = Some d -> at_index name ix k f vs = Ok (<[k := f d]> vs).
Proof. intros E. unfold at_index. now rewrite E. Qed.


Lemma at_index_twice {K : Type} `{Countable K} n1 n2 ix (k : K) f g
    (vs : gmap K VarData) (d : VarData) :
  vs !! k = Some d ->
  (try p <- at_index n1 ix k f vs; at_index n2 ix k g p) =
  Ok (<[k := g (f d)]> vs).
Proof.
  intros E. rewrite (at_index_present _ _ _ _ _ _ E). cbn [bind].
  rewrite (at_index_present _ _ _ _ _ (f d)) by apply lookup_insert_eq.
  now rewrite insert_insert_eq.
Qed.

Lemma declare_vars_well_indexed : well_indexed declare_vars.
Proof. repeat split; cbn [declare_vars Pij Qij Pg Qg Va V]; apply dense_on_dense. Qed.

(** ** The loop over the generator table (lines 65-69), for any table *)

Lemma gen_bounds_body_inv (i : Z) (row : GenRow) (m m' : Model) :
  gen_bounds_body (i, row) m = Ok m' ->
  exists d d',
    Pg m !! i = Some d /\ Qg m !! i = Some d' /\
    m' = set_Qg (<[i := with_Q_bounds row d']> (Qg m))
           (set_Pg (<[i := with_P_bounds row d]> (Pg m)) m).
Proof.
  unfold gen_bounds_body. cbn [fst snd]. intros Hb.
  apply bind_Ok in Hb as (p1 & H1 & Hb). apply bind_Ok in Hb as (p2 & H2 & Hb).
  apply bind_Ok in Hb as (q1 & H3 & Hb). apply bind_Ok in Hb as (q2 & H4 & Hb).
  injection Hb as <-.
  apply at_index_Ok in H1 as (d & Hd & ->).
  apply at_index_Ok in H2 as (d1 & Hd1 & ->).
  apply at_index_Ok in H3 as (d' & Hd' & ->).
  apply at_index_Ok in H4 as (d1' & Hd1' & ->).
  rewrite lookup_insert_eq in Hd1, Hd1'. injection Hd1 as <-. injection Hd1' as <-.
  exists d, d'. rewrite !insert_insert_eq. auto.
Qed.



(** What one run of the loop leaves untouched, and the index sets. *)
Lemma gen_bounds_frame gens (m m' : Model) :
  gen_bounds gens m = Ok m' ->
  Pij m' = Pij m /\ Qij m' = Qij m /\ Va m' = Va m /\ V m' = V m /\
  OF m' = OF m /\
  (dense_on model_i (Pg m) -> dense_on model_i (Pg m')) /\
  (dense_on model_i (Qg m) -> dense_on model_i (Qg m')).
Proof.
  unfold gen_bounds. revert m.
  induction gens as [|[i row] gens IH]; intros m; cbn [for_each].
  - intros [= <-]. tauto.
  - intros Hb. apply bind_Ok in Hb as (m1 & H1 & Hb).
    apply gen_bounds_body_inv in H1 as (d & d' & Hd & Hd' & ->).
    destruct (IH _ Hb) as (-> & -> & -> & -> & -> & HP & HQ).
    unfold set_Qg, set_Pg in *. cbn [Pij Qij Va V OF Pg Qg] in *.
    do 5 (split; [reflexivity|]). split.
    + intros Hden. apply HP. exact (dense_on_insert _ _ _ _ _ Hden Hd).
    + intros Hden. apply HQ. exact (dense_on_insert _ _ _ _ _ Hden Hd').
Qed.

Lemma dict_get_fresh {A : Type} (i : Z) (d : dict Z A) :
  ~ In i (map fst d) -> dict_get Z.eqb i d = None.
Proof.
  induction d as [|[i' a] d IH]; cbn [map dict_get fst]; [reflexivity|].
  intros Hn. destruct (Z.eqb_spec i i') as [->|Hne]; [exfalso; apply Hn; now left|].
  apply IH. intros Hin. apply Hn. now right.
Qed.

(** With distinct keys, as in a dictionary, each generator row bounds the
    variables of its own bus and the loop changes no other. *)
Lemma gen_bounds_lookup gens (m m' : Model) (i : Z) :
  NoDup (map fst gens) ->
  gen_bounds gens m = Ok m' ->
  Pg m' !! i =
    match dict_get Z.eqb i gens with
    | Some row => with_P_bounds row <$> Pg m !! i
    | None => Pg m !! i
    end /\
  Qg m' !! i =
    match dict_get Z.eqb i gens with
    | Some row => with_Q_bounds row <$> Qg m !! i
    | None => Qg m !! i
    end.
Proof.
  unfold gen_bounds. revert m.
  induction gens as [|[i0 row0] gens IH]; intros m Hnd; cbn [for_each dict_get].
  - intros [= <-]. tauto.
  - intros Hb. apply bind_Ok in Hb as (m1 & H1 & Hb).
    apply gen_bounds_body_inv in H1 as (d & d' & Hd & Hd' & ->).
    cbn [map fst] in Hnd. apply NoDup_cons in Hnd as [Hfresh Hnd].
    rewrite list_elem_of_In in Hfresh.
    destruct (IH _ Hnd Hb) as [HP HQ]. rewrite HP, HQ.
    unfold set_Qg, set_Pg. cbn [Pg Qg].
    destruct (Z.eqb_spec i i0) as [->|Hne].
    + rewrite (dict_get_fresh i0 gens Hfresh), !lookup_insert_eq, Hd, Hd'.
      split; reflexivity.
    + rewrite !lookup_insert_ne by congruence. split; reflexivity.
Qed.



(** ** The loop over the line table (lines 76-79), for any table *)

Lemma flow_bounds_body_inv (k : Z * Z) (row : LineRow) (m m' : Model) :
  flow_bounds_body (k, row) m = Ok m' ->
  exists d,
    Pij m !! k = Some d /\
    m' = set_Pij (<[k := with_flow_bounds row d]> (Pij m)) m.
Proof.
  unfold flow_bounds_body. cbn [fst snd]. intros Hb.
  apply bind_Ok in Hb as (p1 & H1 & Hb). apply bind_Ok in Hb as (p2 & H2 & Hb).
  injection Hb as <-.
  apply at_index_Ok in H1 as (d & Hd & ->).
  apply at_index_Ok in H2 as (d1 & Hd1 & ->).
  rewrite lookup_insert_eq in Hd1. injection Hd1 as <-.
  exists d. rewrite insert_insert_eq. auto.
Qed.



Lemma flow_bounds_frame lines (m m' : Model) :
  flow_bounds lines m = Ok m' ->
  Qij m' = Qij m /\ Pg m' = Pg m /\ Qg m' = Qg m /\ Va m' = Va m /\
  V m' = V m /\ OF m' = OF m /\
  (dense_on model_ij (Pij m) -> dense_on model_ij (Pij m')).
Proof.
  unfold flow_bounds. revert m.
  induction lines as [|[k row] lines IH]; intros m; cbn [for_each].
  - intros [= <-]. tauto.
  - intros Hb. apply bind_Ok in Hb as (m1 & H1 & Hb).
    apply flow_bounds_body_inv in H1 as (d & Hd & ->).
    destruct (IH _ Hb) as (-> & -> & -> & -> & -> & -> & HP).
    unfold set_Pij in *. cbn [Pij Qij Va V OF Pg Qg] in *.
    do 6 (split; [reflexivity|]).
    intros Hden. apply HP. exact (dense_on_insert _ _ _ _ _ Hden Hd).
Qed.

Lemma dict_get_fresh_pair {A : Type} (k : Z * Z) (d : dict (Z * Z) A) :
  ~ In k (map fst d) -> dict_get key_eqb k d = None.
Proof.
  induction d as [|[k' a] d IH]; cbn [map dict_get fst]; [reflexivity|].
  intros Hn. destruct (key_eqb k k') eqn:E.
  - apply key_eqb_eq in E as ->. exfalso. apply Hn. now left.
  - apply IH. intros Hin. apply Hn. now right.
Qed.

Lemma key_eqb_refl (k : Z * Z) : key_eqb k k = true.
Proof. now apply key_eqb_eq. Qed.

Lemma key_eqb_neq (k k' : Z * Z) : k <> k' -> key_eqb k k' = false.
Proof.
  intros Hne. destruct (key_eqb k k') eqn:E; [|reflexivity].
  apply key_eqb_eq in E. contradiction.
Qed.

(** With distinct keys, each line bounds the flow variable of its own
    ordered pair and the loop changes no other. *)
Lemma flow_bounds_lookup lines (m m' : Model) (k : Z * Z) :
  NoDup (map fst lines) ->
  flow_bounds lines m = Ok m' ->
  Pij m' !! k =
    match dict_get key_eqb k lines with
    | Some row => with_flow_bounds row <$> Pij m !! k
    | None => Pij m !! k
    end.
Proof.
  unfold flow_bounds. revert m.
  induction lines as [|[k0 row0] lines IH]; intros m Hnd; cbn [for_each dict_get].
  - now intros [= <-].
  - intros Hb. apply bind_Ok in Hb as (m1 & H1 & Hb).
    apply flow_bounds_body_inv in H1 as (d & Hd & ->).
    cbn [map fst] in Hnd. apply NoDup_cons in Hnd as [Hfresh Hnd].
    rewrite list_elem_of_In in Hfresh.
    rewrite (IH _ Hnd Hb). unfold set_Pij. cbn [Pij].
    destruct (decide (k = k0)) as [->|Hne].
    + rewrite key_eqb_refl, (dict_get_fresh_pair k0 lines Hfresh),
        lookup_insert_eq, Hd. reflexivity.
    + rewrite (key_eqb_neq _ _ Hne), !lookup_insert_ne by congruence. reflexivity.
Qed.



(** ** When the build succeeds and how it fails, for any tables *)






Lemma build_bounds_inv gens lines (m0 : Model) :
  build_bounds gens lines = Ok m0 ->
  exists d m1,
    bij lines = Ok d /\
    gen_bounds gens declare_vars = Ok m1 /\
    flow_bounds lines (angle_bounds m1) = Ok m0.
Proof.
  unfold build_bounds. intros Hb.
  apply bind_Ok in Hb as (d & Hd & Hb). apply bind_Ok in Hb as (m1 & Hm1 & Hb).
  eauto.
Qed.

Lemma build_bounds_well_indexed gens lines (m0 : Model) :
  build_bounds gens lines = Ok m0 -> well_indexed m0.
Proof.
  intros Hb. apply build_bounds_inv in Hb as (d & m1 & _ & Hg & Hf).
  destruct declare_vars_well_indexed as (W1 & W2 & W3 & W4 & W5 & W6).
  destruct (gen_bounds_frame _ _ _ Hg) as (G1 & G2 & G3 & G4 & _ & G6 & G7).
  destruct (flow_bounds_frame _ _ _ Hf) as (F1 & F2 & F3 & F4 & F5 & _ & F7).
  unfold angle_bounds, set_Va, at_all in *. cbn [Pij Qij Pg Qg Va V] in *.
  unfold well_indexed. rewrite F1, F2, F3, F4, F5, G2, G4.
  split; [apply F7; now rewrite G1|]. split; [exact W2|].
  split; [auto|]. split; [auto|]. split; [|exact W6].
  do 2 apply dense_on_fmap. now rewrite G3.
Qed.

Lemma gen_bounds_keys gens (m m' : Model) :
  dense_on model_i (Pg m) ->
  gen_bounds gens m = Ok m' ->
  forall i row, In (i, row) gens -> In i model_i.
Proof.
  unfold gen_bounds. revert m.
  induction gens as [|[i0 row0] gens IH]; intros m HP Hb i row Hin; [contradiction|].
  cbn [for_each] in Hb. apply bind_Ok in Hb as (m1 & H1 & Hb).
  apply gen_bounds_body_inv in H1 as (d & d' & Hd & Hd' & ->).
  destruct Hin as [[= <- <-]|Hin].
  - apply HP. eauto.
  - eapply IH; [|exact Hb|exact Hin].
    unfold set_Qg, set_Pg. cbn [Pg]. exact (dense_on_insert _ _ _ _ _ HP Hd).
Qed.

Lemma flow_bounds_keys lines (m m' : Model) :
  dense_on model_ij (Pij m) ->
  flow_bounds lines m = Ok m' ->
  forall k row, In (k, row) lines -> In k model_ij.
Proof.
  unfold flow_bounds. revert m.
  induction lines as [|[k0 row0] lines IH]; intros m HP Hb k row Hin; [contradiction|].
  cbn [for_each] in Hb. apply bind_Ok in Hb as (m1 & H1 & Hb).
  apply flow_bounds_body_inv in H1 as (d & Hd & ->).
  destruct Hin as [[= <- <-]|Hin].
  - apply HP. eauto.
  - eapply IH; [|exact Hb|exact Hin].
    unfold set_Pij. cbn [Pij]. exact (dense_on_insert _ _ _ _ _ HP Hd).
Qed.



Lemma build_keys_in_range gens demands lines (m : Model) :
  build gens demands lines = Ok m ->
  (forall i row, In (i, row) gens -> In i model_i) /\
  (forall k row, In (k, row) lines -> In (fst k) model_i /\ In (snd k) model_j).
Proof.
  intros Hb.
  destruct (build_inv _ _ _ _ Hb) as (m0 & _ & _ & Hm0 & _).
  apply build_bounds_inv in Hm0 as (d & m1 & Hd & Hg & Hf).
  destruct declare_vars_well_indexed as (W1 & _ & W3 & _).
  split.
  - exact (gen_bounds_keys _ _ _ W3 Hg).
  - intros [i j] row Hin. apply in_model_ij.
    apply (flow_bounds_keys lines (angle_bounds m1) m0) with (row := row);
      [|exact Hf|exact Hin].
    destruct (gen_bounds_frame _ _ _ Hg) as (G1 & _).
    unfold angle_bounds, set_Va. cbn [Pij]. now rewrite G1.
Qed.


(** A line of reactance zero stops the script at line 43 with
    [ZeroDivisionError], whatever else is wrong with the tables. *)
Theorem zero_reactance_raises_first gens demands lines (k : Z * Z) (row : LineRow) :
  In (k, row) lines -> (x row == 0)%Q ->
  build gens demands lines = Raise ZeroDivisionError.
Proof.
  intros Hin Hz. unfold build, build_bounds.
  now rewrite (bij_some_zero lines k row Hin Hz).
Qed.

Lemma zero_reactance_raises_first_witness :
  In ((2, 4), mkLine 0.001 0 0.01 300) LN_zero_x /\
  (0 == 0)%Q /\
  build GenD_bus7 BD LN_zero_x = Raise ZeroDivisionError.
Proof.
  split; [simpl; tauto|]. split; [reflexivity|].
  apply (zero_reactance_raises_first GenD_bus7 BD LN_zero_x (2, 4)
           (mkLine 0.001 0 0.01 300)).
  - simpl. tauto.
  - reflexivity.
Defined.





(** ** The demand table is read at the buses of the bus set only *)

Lemma for_each_agree {A S : Type} (f g : A -> S -> result S) (xs : list A) (s : S) :
  (forall a t, In a xs -> f a t = g a t) -> for_each f xs s = for_each g xs s.
Proof.
  revert s. induction xs as [|a xs IH]; intros s Hfg; cbn [for_each]; [reflexivity|].
  rewrite (Hfg a s (or_introl eq_refl)).
  destruct (g a s) as [s'|e]; cbn [bind]; [|reflexivity].
  apply IH. intros a' t Ha'. apply Hfg. now right.
Qed.

Lemma indexed_constraint_agree {K : Type} `{Countable K}
    (rule1 rule2 : K -> result (option constraint)) (idx : list K) :
  (forall k, In k idx -> rule1 k = rule2 k) ->
  indexed_constraint rule1 idx = indexed_constraint rule2 idx.
Proof.
  intros Hr. unfold indexed_constraint. apply for_each_agree.
  intros k cs Hk. now rewrite (Hr k Hk).
Qed.

(** Two demand tables that agree on the buses of the bus set give the same
    build: an entry for any other bus is never read, so, unlike a generator
    or a line outside the bus set, it raises nothing and changes nothing. *)
Theorem build_reads_demands_on_buses_only gens demands1 demands2 lines :
  (forall i, In i model_i ->
     dict_get Z.eqb i demands1 = dict_get Z.eqb i demands2) ->
  build gens demands1 lines = build gens demands2 lines.
Proof.
  intros Hd. unfold build.
  rewrite (indexed_constraint_agree (eq3_rule demands1 lines) (eq3_rule demands2 lines)).
  rewrite (indexed_constraint_agree (eq4_rule demands1 lines) (eq4_rule demands2 lines)).
  - reflexivity.
  - intros i Hi. unfold eq4_rule, dict_mem, getitem. now rewrite (Hd i Hi).
  - intros i Hi. unfold eq3_rule, dict_mem, getitem. now rewrite (Hd i Hi).
Qed.

Lemma build_reads_demands_on_buses_only_witness :
  (forall i, In i model_i -> dict_get Z.eqb i BD_bus9 = dict_get Z.eqb i BD) /\
  build GenD BD_bus9 LN = build GenD BD LN.
Proof.
  assert (H : forall i, In i model_i -> dict_get Z.eqb i BD_bus9 = dict_get Z.eqb i BD).
  { intros i Hi. simpl in Hi.
    repeat (destruct Hi as [<-|Hi]; [reflexivity|]). contradiction. }
  split; [exact H|].
  exact (build_reads_demands_on_buses_only GenD BD_bus9 BD LN H).
Defined.

(** ** What every built model looks like, whatever the tables *)

Lemma dense_lookup_inv {K : Type} `{Countable K} (idx : list K) (k : K) (d : VarData) :
  dense idx !! k = Some d -> In k idx /\ d = new_var.
Proof.
  intros Hd. assert (Hin : In k idx) by (apply (dense_on_dense idx k); eauto).
  rewrite (dense_lookup idx k Hin) in Hd. injection Hd as <-. auto.
Qed.

Lemma all_unset_dense {K : Type} `{Countable K} (idx : list K) :
  all_unset (dense idx).
Proof.
  intros k d Hd. apply dense_lookup_inv in Hd as [_ ->]. split; reflexivity.
Qed.

Lemma all_unset_insert {K : Type} `{Countable K} (vs : gmap K VarData)
    (k : K) (d : VarData) :
  all_unset vs -> unset d -> all_unset (<[k := d]> vs).
Proof.
  intros Hall Hd k' d'. destruct (decide (k = k')) as [<-|Hne].
  - rewrite lookup_insert_eq. now intros [= <-].
  - rewrite lookup_insert_ne by exact Hne. apply Hall.
Qed.

Lemma gen_bounds_unset gens (m m' : Model) :
  gen_bounds gens m = Ok m' ->
  all_unset (Pg m) -> all_unset (Qg m) ->
  all_unset (Pg m') /\ all_unset (Qg m').
Proof.
  unfold gen_bounds. revert m.
  induction gens as [|[i row] gens IH]; intros m; cbn [for_each].
  - intros [= <-]. tauto.
  - intros Hb HP HQ. apply bind_Ok in Hb as (m1 & H1 & Hb).
    apply gen_bounds_body_inv in H1 as (d & d' & Hd & Hd' & ->).
    apply (IH _ Hb); unfold set_Qg, set_Pg; cbn [Pg Qg];
      apply all_unset_insert; auto.
    + exact (HP i d Hd).
    + exact (HQ i d' Hd').
Qed.

Lemma flow_bounds_unset lines (m m' : Model) :
  flow_bounds lines m = Ok m' -> all_unset (Pij m) -> all_unset (Pij m').
Proof.
  unfold flow_bounds. revert m.
  induction lines as [|[k row] lines IH]; intros m; cbn [for_each].
  - now intros [= <-].
  - intros Hb HP. apply bind_Ok in Hb as (m1 & H1 & Hb).
    apply flow_bounds_body_inv in H1 as (d & Hd & ->).
    apply (IH _ Hb). unfold set_Pij. cbn [Pij].
    apply all_unset_insert; auto. exact (HP k d Hd).
Qed.

(** Whatever the tables, a built model has its variables exactly on the
    index sets the script declares; none of them is fixed; only V[1] (= 1)
    and Va[1] (= 0) carry a value; OF, every Qij and every V have no bound;
    every Va is bounded by -pi/2 and pi/2. *)
Theorem built_model_inventory gens demands lines (m : Model) :
  build gens demands lines = Ok m ->
  well_indexed m /\
  OF m = new_var /\
  (forall k d, Qij m !! k = Some d -> d = new_var) /\
  (forall i d, V m !! i = Some d ->
     d = mkVar (if i =? 1 then Some 1%R else None) None None false) /\
  (forall i d, Va m !! i = Some d ->
     d = mkVar (if i =? 1 then Some 0%R else None)
               (Some (- PI / 2)%R) (Some (PI / 2)%R) false) /\
  all_unset (Pg m) /\ all_unset (Qg m) /\ all_unset (Pij m).
Proof.
  intros Hb.
  destruct (build_inv _ _ _ _ Hb)
    as (m0 & v & a & Hm0 & _ & _ & _ & _ & _ & Hv & Ha & EV & EA & EP & EQ & EPg & EQg & EOF).
  pose proof (build_bounds_well_indexed _ _ _ Hm0) as (W1 & W2 & W3 & W4 & W5 & W6).
  apply build_bounds_inv in Hm0 as (bs & m1 & _ & Hg & Hf).
  destruct (gen_bounds_frame _ _ _ Hg) as (G1 & G2 & G3 & G4 & G5 & _).
  destruct (flow_bounds_frame _ _ _ Hf) as (F1 & F2 & F3 & F4 & F5 & F6 & _).
  destruct (gen_bounds_unset _ _ _ Hg (all_unset_dense _) (all_unset_dense _)) as [UP UQ].
  unfold angle_bounds, set_Va, at_all in *. cbn [Pij Qij Pg Qg Va V OF] in *.
  apply at_index_Ok in Hv as (dv & Hdv & ->). apply at_index_Ok in Ha as (da & Hda & ->).
  rewrite F5, G4 in Hdv. cbn [declare_vars V] in Hdv.
  apply dense_lookup_inv in Hdv as [_ ->].
  rewrite F4, !lookup_fmap, G3 in Hda. cbn [declare_vars Va] in Hda.
  rewrite (dense_lookup model_i 1) in Hda by (simpl; tauto). injection Hda as <-.
  split.
  { unfold well_indexed. rewrite EV, EA, EP, EQ, EPg, EQg.
    split; [exact W1|]. split; [exact W2|]. split; [exact W3|]. split; [exact W4|].
    split.
    - apply (dense_on_insert model_i (Va m0) 1
               (setlb (- PI / 2) (setub (PI / 2) new_var))); [exact W5|].
      rewrite F4, !lookup_fmap, G3. cbn [declare_vars Va].
      now rewrite (dense_lookup model_i 1) by (simpl; tauto).
    - apply (dense_on_insert model_i (V m0) 1 new_var); [exact W6|].
      rewrite F5, G4. cbn [declare_vars V]. apply dense_lookup. simpl; tauto. }
  split; [rewrite EOF, F6, G5; reflexivity|].
  split.
  { intros k d. rewrite EQ, F1, G2. cbn [declare_vars Qij].
    intros Hd. now apply dense_lookup_inv in Hd. }
  split.
  { intros i d. rewrite EV, F5, G4. cbn [declare_vars V].
    destruct (Z.eqb_spec i 1) as [->|Hne].
    - rewrite lookup_insert_eq. now intros [= <-].
    - rewrite lookup_insert_ne by congruence. intros Hd.
      now apply dense_lookup_inv in Hd as [_ ->]. }
  split.
  { intros i d. rewrite EA, F4, G3. cbn [declare_vars Va].
    destruct (Z.eqb_spec i 1) as [->|Hne].
    - rewrite lookup_insert_eq. now intros [= <-].
    - rewrite lookup_insert_ne, !lookup_fmap by congruence.
      destruct (dense model_i !! i) as [d0|] eqn:E; [|discriminate].
      apply dense_lookup_inv in E as [_ ->]. now intros [= <-]. }
  rewrite EPg, EQg, EP, F2, F3.
  split; [exact UP|]. split; [exact UQ|].
  apply (flow_bounds_unset _ _ _ Hf). cbn [Pij]. rewrite G1.
  apply all_unset_dense.
Qed.

Lemma built_model_inventory_witness :
  build GenD BD LN = Ok model /\ well_indexed model /\ all_unset (Pij model).
Proof.
  split; [exact built_ok|].
  destruct (built_model_inventory GenD BD LN model built_ok)
    as (W & _ & _ & _ & _ & _ & _ & U).
  exact (conj W U).
Defined.

(** ** Bounds set from the tables, for any tables with distinct keys *)

Lemma with_P_bounds_new (row : GenRow) :
  lb (with_P_bounds row new_var) = Some (Q2R (pmin row) / 100)%R /\
  ub (with_P_bounds row new_var) = Some (Q2R (pmax row) / 100)%R.
Proof. cbn. now rewrite !per_unit_eq. Qed.

Lemma with_Q_bounds_new (row : GenRow) :
  lb (with_Q_bounds row new_var) = Some (Q2R (Qmin row) / 100)%R /\
  ub (with_Q_bounds row new_var) = Some (Q2R (Qmax row) / 100)%R.
Proof. cbn. now rewrite !per_unit_eq. Qed.

Lemma with_flow_bounds_new (row : LineRow) :
  lb (with_flow_bounds row new_var) = Some (- (Q2R (limit row) / 100))%R /\
  ub (with_flow_bounds row new_var) = Some (Q2R (limit row) / 100)%R.
Proof. cbn. now rewrite per_unit_opp, per_unit_eq. Qed.

Lemma build_stores gens demands lines (m : Model) :
  build gens demands lines = Ok m ->
  exists m0 m1,
    gen_bounds gens declare_vars = Ok m1 /\
    flow_bounds lines (angle_bounds m1) = Ok m0 /\
    Pg m = Pg m1 /\ Qg m = Qg m1 /\ Pij m = Pij m0.
Proof.
  intros Hb.
  destruct (build_inv _ _ _ _ Hb)
    as (m0 & v & a & Hm0 & _ & _ & _ & _ & _ & _ & _ & _ & _ & EP & _ & EPg & EQg & _).
  apply build_bounds_inv in Hm0 as (bs & m1 & _ & Hg & Hf).
  destruct (flow_bounds_frame _ _ _ Hf) as (_ & F2 & F3 & _).
  exists m0, m1. cbn [angle_bounds set_Va Pg Qg] in F2, F3.
  rewrite EPg, EQg, F2, F3. auto.
Qed.

(** Whatever the tables, if the generator keys are distinct, a built model
    bounds Pg and Qg of each generator bus by [pmin, pmax]/Sbase and
    [Qmin, Qmax]/Sbase of its row, and leaves Pg and Qg of every other bus
    as declared. *)
Theorem generator_bounds_of_build gens demands lines (m : Model) (i : Z) :
  build gens demands lines = Ok m ->
  NoDup (map fst gens) ->
  In i model_i ->
  exists pg qg,
    Pg m !! i = Some pg /\ Qg m !! i = Some qg /\
    match dict_get Z.eqb i gens with
    | Some row =>
        lb pg = Some (Q2R (pmin row) / 100)%R /\
        ub pg = Some (Q2R (pmax row) / 100)%R /\
        lb qg = Some (Q2R (Qmin row) / 100)%R /\
        ub qg = Some (Q2R (Qmax row) / 100)%R
    | None => pg = new_var /\ qg = new_var
    end.
Proof.
  intros Hb Hnd Hi.
  destruct (build_stores _ _ _ _ Hb) as (m0 & m1 & Hg & _ & -> & -> & _).
  destruct (gen_bounds_lookup gens declare_vars m1 i Hnd Hg) as [HP HQ].
  cbn [declare_vars Pg Qg] in HP, HQ.
  rewrite (dense_lookup model_i i Hi) in HP, HQ. rewrite HP, HQ.
  destruct (dict_get Z.eqb i gens) as [row|]; cbn [fmap option_fmap option_map].
  - exists (with_P_bounds row new_var), (with_Q_bounds row new_var).
    destruct (with_P_bounds_new row) as [-> ->].
    destruct (with_Q_bounds_new row) as [-> ->]. tauto.
  - exists new_var, new_var. tauto.
Qed.

(** Whatever the tables, if the line keys are distinct, a built model bounds
    Pij of each line key by [-limit, limit]/Sbase of its row and leaves Pij
    of every other ordered pair, the reverse of a line included, as
    declared. *)
Theorem flow_bounds_of_build gens demands lines (m : Model) (i j : Z) :
  build gens demands lines = Ok m ->
  NoDup (map fst lines) ->
  In i model_i -> In j model_j ->
  exists p,
    Pij m !! (i, j) = Some p /\
    match dict_get key_eqb (i, j) lines with
    | Some row =>
        lb p = Some (- (Q2R (limit row) / 100))%R /\
        ub p = Some (Q2R (limit row) / 100)%R
    | None => p = new_var
    end.
Proof.
  intros Hb Hnd Hi Hj.
  destruct (build_stores _ _ _ _ Hb) as (m0 & m1 & Hg & Hf & _ & _ & ->).
  rewrite (flow_bounds_lookup lines _ m0 (i, j) Hnd Hf).
  destruct (gen_bounds_frame _ _ _ Hg) as (G1 & _).
  cbn [angle_bounds set_Va Pij]. rewrite G1. cbn [declare_vars Pij].
  rewrite (dense_lookup model_ij (i, j)) by (now apply in_model_ij).
  destruct (dict_get key_eqb (i, j) lines) as [row|]; cbn [fmap option_fmap option_map].
  - exists (with_flow_bounds row new_var).
    destruct (with_flow_bounds_new row) as [-> ->]. tauto.
  - exists new_var. tauto.
Qed.

Lemma NoDup_GenD_keys : NoDup (map fst GenD).
Proof. apply (bool_decide_unpack _). vm_compute. exact I. Qed.

Lemma NoDup_LN_keys : NoDup (map fst LN).
Proof. apply (bool_decide_unpack _). vm_compute. exact I. Qed.

Lemma generator_bounds_of_build_witness :
  build GenD BD LN = Ok model /\ NoDup (map fst GenD) /\ In 3 model_i /\
  exists pg qg,
    Pg model !! 3 = Some pg /\ Qg model !! 3 = Some qg /\
    match dict_get Z.eqb 3 GenD with
    | Some row =>
        lb pg = Some (Q2R (pmin row) / 100)%R /\
        ub pg = Some (Q2R (pmax row) / 100)%R /\
        lb qg = Some (Q2R (Qmin row) / 100)%R /\
        ub qg = Some (Q2R (Qmax row) / 100)%R
    | None => pg = new_var /\ qg = new_var
    end.
Proof.
  split; [vm_compute; reflexivity|]. split; [exact NoDup_GenD_keys|].
  split; [simpl; tauto|].
  apply (generator_bounds_of_build GenD BD LN model 3 built_ok NoDup_GenD_keys).
  simpl. tauto.
Defined.

Lemma flow_bounds_of_build_witness :
  build GenD BD LN = Ok model /\ NoDup (map fst LN) /\
  In 5 model_i /\ In 4 model_j /\
  exists p,
    Pij model !! (5, 4) = Some p /\
    match dict_get key_eqb (5, 4) LN with
    | Some row =>
        lb p = Some (- (Q2R (limit row) / 100))%R /\
        ub p = Some (Q2R (limit row) / 100)%R
    | None => p = new_var
    end.
Proof.
  split; [vm_compute; reflexivity|]. split; [exact NoDup_LN_keys|].
  split; [simpl; tauto|]. split; [simpl; tauto|].
  apply (flow_bounds_of_build GenD BD LN model 5 4 built_ok NoDup_LN_keys);
    simpl; tauto.
Defined.

(** ** Angles enter the constraints through differences only *)

Lemma flow_rhs_shift delta rho i j theta zz :
  flow_P_rhs (shift_angles delta rho) i j theta zz = flow_P_rhs rho i j theta zz /\
  flow_Q_rhs (shift_angles delta rho) i j theta zz = flow_Q_rhs rho i j theta zz.
Proof.
  unfold flow_P_rhs, flow_Q_rhs. cbn [shift_angles].
  replace (rho (var_Va i) + delta - (rho (var_Va j) + delta) + theta)%R
    with (rho (var_Va i) - rho (var_Va j) + theta)%R by ring.
  split; reflexivity.
Qed.

Lemma inflow_sum_shift delta rho (flow : Z -> Z -> var) lines i :
  (forall a c, shift_angles delta rho (flow a c) = rho (flow a c)) ->
  inflow_sum (shift_angles delta rho) flow lines i = inflow_sum rho flow lines i.
Proof.
  intros Hf. unfold inflow_sum. f_equal. apply map_ext. intros j. apply Hf.
Qed.

(** Whatever the tables, moving every voltage angle by the same amount
    changes neither the truth of any constraint of a built model nor the
    value of its objective: only the bounds on Va and the initial value of
    Va[1] tie the angles to a reference. *)
Theorem constraints_invariant_under_angle_shift gens demands lines (m : Model)
    (delta : R) (rho : var -> R) :
  build gens demands lines = Ok m ->
  (forall k c, eq1 m !! k = Some c ->
     (holds (shift_angles delta rho) c <-> holds rho c)) /\
  (forall k c, eq2 m !! k = Some c ->
     (holds (shift_angles delta rho) c <-> holds rho c)) /\
  (forall i c, eq3 m !! i = Some c ->
     (holds (shift_angles delta rho) c <-> holds rho c)) /\
  (forall i c, eq4 m !! i = Some c ->
     (holds (shift_angles delta rho) c <-> holds rho c)) /\
  (forall o, objective m = Some o ->
     eval (shift_angles delta rho) (obj_expr o) = eval rho (obj_expr o)).
Proof.
  intros Hb.
  assert (Hflow : forall i j,
    (forall c, eq1 m !! (i, j) = Some c ->
       (holds (shift_angles delta rho) c <-> holds rho c)) /\
    (forall c, eq2 m !! (i, j) = Some c ->
       (holds (shift_angles delta rho) c <-> holds rho c))).
  { intros i j.
    destruct (flow_constraints_of_build _ _ _ _ i j Hb) as [Hon Hoff].
    destruct (Z.eq_dec (cx_get lines (i, j)) 1) as [Hcx|Hcx].
    - destruct (Hon Hcx) as (row & c1 & c2 & _ & E1 & E2 & Hsem).
      destruct (flow_rhs_shift delta rho i j (theta_spec row) (z_spec row)) as [SP SQ].
      split; intros c Hc; [rewrite E1 in Hc|rewrite E2 in Hc]; injection Hc as <-.
      + rewrite (proj1 (Hsem _)), (proj1 (Hsem _)), SP. reflexivity.
      + rewrite (proj2 (Hsem _)), (proj2 (Hsem _)), SQ. reflexivity.
    - destruct (Hoff Hcx) as [E1 E2].
      split; intros c Hc; [rewrite E1 in Hc|rewrite E2 in Hc]; discriminate. }
  assert (Hbal : forall i,
    (forall c, eq3 m !! i = Some c ->
       (holds (shift_angles delta rho) c <-> holds rho c)) /\
    (forall c, eq4 m !! i = Some c ->
       (holds (shift_angles delta rho) c <-> holds rho c))).
  { intros i.
    destruct (balance_constraints_of_build _ _ _ _ i Hb) as [Hon Hoff].
    destruct (build_inv _ _ _ _ Hb) as (m0 & v & a & _ & _ & _ & H3 & H4 & _).
    pose proof (indexed_constraint_lookup _ _ _ i H3) as L3.
    pose proof (indexed_constraint_lookup _ _ _ i H4) as L4.
    destruct (in_dec Z.eq_dec i model_i) as [Hi|Hi].
    - destruct (dict_get Z.eqb i demands) as [row|] eqn:Erow.
      + destruct (Hon row Hi eq_refl) as (c3 & c4 & E3 & E4 & Hsem).
        split; intros c Hc; [rewrite E3 in Hc|rewrite E4 in Hc]; injection Hc as <-.
        * rewrite (proj1 (Hsem _)), (proj1 (Hsem _)).
          rewrite (inflow_sum_shift delta rho var_Pij) by reflexivity. reflexivity.
        * rewrite (proj2 (Hsem _)), (proj2 (Hsem _)).
          rewrite (inflow_sum_shift delta rho var_Qij) by reflexivity. reflexivity.
      + destruct (Hoff eq_refl) as [E3 E4].
        split; intros c Hc; [rewrite E3 in Hc|rewrite E4 in Hc]; discriminate.
    - rewrite decide_False in L3, L4 by (now rewrite list_elem_of_In).
      split; intros c Hc; [rewrite L3 in Hc|rewrite L4 in Hc]; discriminate. }
  split; [intros [i j]; apply Hflow|].
  split; [intros [i j]; apply Hflow|].
  split; [intros i; apply Hbal|]. split; [intros i; apply Hbal|].
  destruct (build_inv _ _ _ _ Hb) as (m0 & v & a & _ & _ & _ & _ & _ & Ho & _).
  intros o Eo. rewrite Ho in Eo. injection Eo as <-. cbn [obj_expr].
  rewrite !eval_objective_rule. reflexivity.
Qed.

Lemma constraints_invariant_under_angle_shift_witness :
  build GenD BD LN = Ok model /\
  (forall k c, eq1 model !! k = Some c ->
     (holds (shift_angles 1 rho_off) c <-> holds rho_off c)).
Proof.
  split; [vm_compute; reflexivity|].
  exact (proj1 (constraints_invariant_under_angle_shift GenD BD LN model 1 rho_off
                  built_ok)).
Defined.

(** ** A bus at which no line ends *)

Lemma inflow_sum_no_line rho flow lines (i : Z) :
  (forall j, In j model_j -> cx_get lines (j, i) <> 1) ->
  inflow_sum rho flow lines i = 0%R.
Proof.
  intros Hno. unfold inflow_sum.
  assert (E : List.filter (fun j => cx_get lines (j, i) =? 1) model_j = []).
  { induction model_j as [|j l IH]; [reflexivity|]. cbn [List.filter].
    destruct (Z.eqb_spec (cx_get lines (j, i)) 1) as [E|_].
    - exfalso. apply (Hno j); [now left|exact E].
    - apply IH. intros j' Hj'. apply Hno. now right. }
  rewrite E. reflexivity.
Qed.

(** Whatever the tables: at a bus with a demand entry at which no line of
    the table ends, every feasible point of a built model has Pg = Pd/Sbase
    and Qg = Qd/Sbase, because the balances sum only the flows into the bus.
    In the script this pins the slack bus 1, the source of all its lines. *)
Theorem generation_pinned_without_inflow gens demands lines (m : Model)
    (i : Z) (row : DemandRow) (rho : var -> R) :
  build gens demands lines = Ok m ->
  In i model_i ->
  dict_get Z.eqb i demands = Some row ->
  (forall j, In j model_j -> cx_get lines (j, i) <> 1) ->
  feasible m rho ->
  rho (var_Pg i) = (Q2R (Pd row) / 100)%R /\
  rho (var_Qg i) = (Q2R (Qd row) / 100)%R.
Proof.
  intros Hb Hi Hrow Hno Hfeas.
  destruct (balance_constraints_of_build _ _ _ _ i Hb) as [Hon _].
  destruct (Hon row Hi Hrow) as (c3 & c4 & E3 & E4 & Hsem).
  destruct Hfeas as (_ & _ & _ & _ & _ & _ & _ & _ & _ & H3 & H4).
  pose proof (proj1 (proj1 (Hsem rho)) (H3 i c3 E3)) as HP.
  pose proof (proj1 (proj2 (Hsem rho)) (H4 i c4 E4)) as HQ.
  rewrite (inflow_sum_no_line rho var_Pij lines i Hno) in HP.
  rewrite (inflow_sum_no_line rho var_Qij lines i Hno) in HQ.
  split; lra.
Qed.

Lemma generation_pinned_without_inflow_witness :
  build GenD BD LN = Ok model /\
  In 1 model_i /\
  dict_get Z.eqb 1 BD = Some (mkDemand 100 0) /\
  (forall j, In j model_j -> cx_get LN (j, 1) <> 1) /\
  feasible model rho_off /\
  rho_off (var_Pg 1) = (Q2R 100 / 100)%R /\
  rho_off (var_Qg 1) = (Q2R 0 / 100)%R.
Proof.
  assert (Hno : forall j, In j model_j -> cx_get LN (j, 1) <> 1).
  { intros j Hj. simpl in Hj.
    repeat (destruct Hj as [<-|Hj]; [discriminate|]). contradiction. }
  split; [vm_compute; reflexivity|]. split; [simpl; tauto|].
  split; [reflexivity|]. split; [exact Hno|]. split; [exact rho_off_feasible|].
  apply (generation_pinned_without_inflow GenD BD LN model 1 (mkDemand 100 0) rho_off
           built_ok); [simpl; tauto|reflexivity|exact Hno|exact rho_off_feasible].
Defined.

(** ** The cost as a function of the outputs, for any generator table *)

Lemma cost_spec_lower (p c : R) :
  (0 <= c)%R -> (0 <= p)%R -> (c <= cost_spec p c)%R.
Proof.
  intros Hc Hp. unfold cost_spec, Sbase.
  assert (0 <= p * c)%R by nra. assert (0 <= p ^ 2 * c)%R by nra. nra.
Qed.

Lemma sum_R_le {A : Type} (f g : A -> R) (l : list A) :
  (forall a, In a l -> (f a <= g a)%R) ->
  (sum_R (map f l) <= sum_R (map g l))%R.
Proof.
  induction l as [|a l IH]; intros Hfg; cbn [map sum_R fold_right]; [lra|].
  fold (sum_R (map f l)). fold (sum_R (map g l)).
  pose proof (Hfg a (or_introl eq_refl)).
  assert (sum_R (map f l) <= sum_R (map g l))%R by (apply IH; intros; apply Hfg; now right).
  lra.
Qed.

(** Whatever the tables, the objective of a built model is minimised, reads
    the generator table only, and is the sum over its rows of
    Pg*b*Sbase + Pg^2*b*Sbase^2 + b; with cost coefficients b >= 0 it is at
    least the sum of the b's wherever no generator output is negative, and
    equal to it where all outputs are 0. *)
Theorem objective_of_build gens demands lines (m : Model) :
  build gens demands lines = Ok m ->
  exists e,
    objective m = Some (mkObjective minimize e) /\
    (forall rho,
       eval rho e =
       sum_R (map (fun g => cost_spec (rho (var_Pg (fst g))) (Q2R (b (snd g)))) gens)) /\
    (forall rho,
       (forall i row, In (i, row) gens -> (0 <= b row)%Q /\ (0 <= rho (var_Pg i))%R) ->
       (sum_R (map (fun g => Q2R (b (snd g))) gens) <= eval rho e)%R) /\
    (forall rho,
       (forall i row, In (i, row) gens -> rho (var_Pg i) = 0%R) ->
       eval rho e = sum_R (map (fun g => Q2R (b (snd g))) gens)).
Proof.
  intros Hb.
  destruct (build_inv _ _ _ _ Hb) as (m0 & v & a & _ & _ & _ & _ & _ & Ho & _).
  exists (objective_rule gens). split; [exact Ho|].
  split; [intros rho; apply eval_objective_rule|]. split.
  - intros rho Hpos. rewrite eval_objective_rule. apply sum_R_le.
    intros [i row] Hin. cbn [fst snd]. destruct (Hpos i row Hin) as [Hc Hp].
    apply cost_spec_lower; [|exact Hp].
    apply Qle_Rle in Hc. now rewrite RMicromega.Q2R_0 in Hc.
  - intros rho Hzero. rewrite eval_objective_rule. f_equal.
    apply map_ext_in. intros [i row] Hin. cbn [fst snd].
    rewrite (Hzero i row Hin). unfold cost_spec. ring.
Qed.

Lemma objective_of_build_witness :
  build GenD BD LN = Ok model /\
  exists e, objective model = Some (mkObjective minimize e).
Proof.
  split; [vm_compute; reflexivity|].
  destruct (objective_of_build GenD BD LN model built_ok) as (e & He & _).
  exists e. exact He.
Defined.

(** ** Constraints of a built model, for any tables *)

(** Whatever the tables, a built model has the two flow equations at an
    ordered pair exactly when the pair is a key of the line table, with z
    and theta of that row; a pair that is no key, such as the reverse of a
    line declared one way, has none. *)
Theorem flow_equations_of_build gens demands lines (m : Model) (i j : Z) :
  build gens demands lines = Ok m ->
  match dict_get key_eqb (i, j) lines with
  | Some row =>
      exists c1 c2,
        eq1 m !! (i, j) = Some c1 /\
        eq2 m !! (i, j) = Some c2 /\
        forall rho,
          (holds rho c1 <->
           rho (var_Pij i j) = flow_P_rhs rho i j (theta_spec row) (z_spec row)) /\
          (holds rho c2 <->
           rho (var_Qij i j) = flow_Q_rhs rho i j (theta_spec row) (z_spec row))
  | None => eq1 m !! (i, j) = None /\ eq2 m !! (i, j) = None
  end.
Proof.
  intros Hb.
  destruct (flow_constraints_of_build _ _ _ _ i j Hb) as [Hon Hoff].
  destruct (dict_get key_eqb (i, j) lines) as [row|] eqn:Erow.
  - assert (Hin : In i model_i /\ In j model_j).
    { apply (proj2 (build_keys_in_range gens demands lines m Hb) (i, j) row).
      now apply dict_get_In. }
    assert (Hcx : cx_get lines (i, j) = 1).
    { apply cx_get_one. split; [tauto|]. split; [tauto|]. apply dict_mem_get. eauto. }
    destruct (Hon Hcx) as (row' & c1 & c2 & Hrow' & E1 & E2 & Hsem).
    assert (row' = row) as -> by congruence. eauto.
  - apply Hoff. rewrite cx_get_one, dict_mem_get. intros (_ & _ & row & E).
    rewrite Erow in E. discriminate.
Qed.

Lemma flow_equations_of_build_witness :
  build GenD BD LN = Ok model /\
  eq1 model !! (2, 1) = None /\ eq2 model !! (2, 1) = None.
Proof.
  split; [vm_compute; reflexivity|].
  exact (flow_equations_of_build GenD BD LN model 2 1 built_ok).
Defined.

(** Whatever the tables, a built model has the two balances at a bus of the
    bus set exactly when the demand table has an entry for it, with the sum
    running over the line keys that end at the bus; at any other index,
    entry or not, it has none. *)
Theorem balance_equations_of_build gens demands lines (m : Model) (i : Z) :
  build gens demands lines = Ok m ->
  (In i model_i ->
   match dict_get Z.eqb i demands with
   | Some row =>
       exists c3 c4,
         eq3 m !! i = Some c3 /\
         eq4 m !! i = Some c4 /\
         forall rho,
           (holds rho c3 <->
            (rho (var_Pg i) - Q2R (Pd row) / 100)%R = inflow_sum rho var_Pij lines i) /\
           (holds rho c4 <->
            (rho (var_Qg i) - Q2R (Qd row) / 100)%R = inflow_sum rho var_Qij lines i)
   | None => eq3 m !! i = None /\ eq4 m !! i = None
   end) /\
  (~ In i model_i -> eq3 m !! i = None /\ eq4 m !! i = None) /\
  (forall j, In j (List.filter (fun j => cx_get lines (j, i) =? 1) model_j) <->
             In j model_j /\ In i model_i /\
             exists row, dict_get key_eqb (j, i) lines = Some row).
Proof.
  intros Hb.
  destruct (balance_constraints_of_build _ _ _ _ i Hb) as [Hon Hoff].
  split; [|split].
  - intros Hi. destruct (dict_get Z.eqb i demands) as [row|] eqn:Erow.
    + exact (Hon row Hi eq_refl).
    + exact (Hoff eq_refl).
  - intros Hi.
    destruct (build_inv _ _ _ _ Hb) as (m0 & v & a & _ & _ & _ & H3 & H4 & _).
    pose proof (indexed_constraint_lookup _ _ _ i H3) as L3.
    pose proof (indexed_constraint_lookup _ _ _ i H4) as L4.
    rewrite decide_False in L3, L4 by (now rewrite list_elem_of_In).
    auto.
  - intros j. rewrite List.filter_In, Z.eqb_eq, cx_get_one, dict_mem_get. tauto.
Qed.

Lemma balance_equations_of_build_witness :
  build GenD BD_bus9 LN = Ok model /\
  eq3 model !! 9 = None /\ eq4 model !! 9 = None.
Proof.
  split; [vm_compute; reflexivity|].
  apply (balance_equations_of_build GenD BD_bus9 LN model 9).
  - vm_compute. reflexivity.
  - simpl. lia.
Defined.

(** ** The reporter on any built model *)

Lemma build_well_indexed gens demands lines (m : Model) :
  build gens demands lines = Ok m -> well_indexed m.
Proof.
  intros Hb.
  destruct (build_inv _ _ _ _ Hb)
    as (m0 & v & a & Hm0 & _ & _ & _ & _ & _ & Hv & Ha & EV & EA & EP & EQ & EPg & EQg & _).
  pose proof (build_bounds_well_indexed _ _ _ Hm0) as (W1 & W2 & W3 & W4 & W5 & W6).
  apply at_index_Ok in Hv as (dv & Hdv & ->). apply at_index_Ok in Ha as (da & Hda & ->).
  unfold well_indexed. rewrite EV, EA, EP, EQ, EPg, EQg.
  split; [exact W1|]. split; [exact W2|]. split; [exact W3|]. split; [exact W4|].
  split.
  - exact (dense_on_insert _ _ _ _ _ W5 Hda).
  - exact (dense_on_insert _ _ _ _ _ W6 Hdv).
Qed.

Lemma assign_lookup (vs : gmap Z VarData) (f : Z -> option R) (i : Z) :
  dense_on model_i vs -> In i model_i ->
  exists d, map_imap (fun k d => Some (load_value (f k) d)) vs !! i = Some d /\
            value d = f i.
Proof.
  intros Hd Hi. destruct (proj2 (Hd i) Hi) as (d & E).
  rewrite map_lookup_imap, E. eexists. split; reflexivity.
Qed.

Lemma loop_lines_length (f : Z -> option R) fmt :
  (length (loop_lines f fmt) <= 5)%nat.
Proof.
  unfold loop_lines. cbn [model_i flat_map].
  destruct (f 1), (f 2), (f 3), (f 4), (f 5); cbn; lia.
Qed.

(** Whatever the tables and whatever the solver returned, printing the
    results of a built model raises nothing; the output is the status line
    followed by the four loops with their two headers, between 3 and 23
    lines in all. *)
Theorem report_of_build gens demands lines (m : Model)
    (vals : var -> option R) (tc : TerminationCondition) :
  build gens demands lines = Ok m ->
  exists out,
    report tc (assign vals m) = Ok out /\
    out = status_line tc :: report_body vals /\
    (3 <= length out <= 23)%nat.
Proof.
  intros Hb. destruct (build_well_indexed _ _ _ _ Hb) as (_ & _ & W3 & W4 & W5 & _).
  eexists. split; [|split; [reflexivity|]].
  - unfold report, report_loops, report_body. cbn [assign Pg Qg Va].
    rewrite (print_loop_ok "Pg" _ (fun i => vals (var_Pg i)))
      by (intros i Hi; exact (assign_lookup _ (fun i => vals (var_Pg i)) i W3 Hi)).
    cbn [bind].
    rewrite (print_loop_ok "Va" _ (fun i => vals (var_Va i)))
      by (intros i Hi; exact (assign_lookup _ (fun i => vals (var_Va i)) i W5 Hi)).
    cbn [bind].
    rewrite (print_loop_ok "Pg" _ (fun i => vals (var_Pg i)))
      by (intros i Hi; exact (assign_lookup _ (fun i => vals (var_Pg i)) i W3 Hi)).
    cbn [bind].
    rewrite (print_loop_ok "Qg" _ (fun i => vals (var_Qg i)))
      by (intros i Hi; exact (assign_lookup _ (fun i => vals (var_Qg i)) i W4 Hi)).
    f_equal. cbn [app]. rewrite <- !app_assoc. reflexivity.
  - unfold report_body. cbn [length]. rewrite !length_app. cbn [length].
    rewrite !length_app. cbn [length].
    pose proof (loop_lines_length (fun i => vals (var_Pg i)) fmt_Pg_bare).
    pose proof (loop_lines_length (fun i => vals (var_Va i)) fmt_Va).
    pose proof (loop_lines_length (fun i => vals (var_Pg i)) fmt_Pg_MW).
    pose proof (loop_lines_length (fun i => vals (var_Qg i)) fmt_Qg_MVar).
    lia.
Qed.

Lemma report_of_build_witness :
  build GenD BD LN = Ok model /\
  exists out,
    report infeasible (assign vals_bus1 model) = Ok out /\
    out = status_line infeasible :: report_body vals_bus1 /\
    (3 <= length out <= 23)%nat.
Proof.
  split; [vm_compute; reflexivity|].
  exact (report_of_build GenD BD LN model vals_bus1 infeasible built_ok).
Defined.
